(** * clickhouse-backup: configuration, COS storage adapter and table metadata

    A shallow embedding of three Go packages of the repository,

    - [config]       (configuration defaults, derived accessors, validation),
    - [new_storage]  (the Tencent COS adapter of the remote-storage interface),
    - [metadata]     ([TableMetadata.Load]),

    together with the few functions of Go's standard library they call
    ([path.Join], [strings.TrimPrefix], [strings.ToUpper], ...).

    Go strings are byte strings; they are modelled by [string] (a list of
    8-bit characters).  Functions of third-party packages whose behaviour
    depends on the outside world (file system, environment, the provider's
    HTTP endpoint, the YAML and JSON decoders) are fields of the interface
    classes [config.Deps], [new_storage.Client], [new_storage.TimeParser]
    and [metadata.Deps]. *)

From Stdlib Require Import ZArith Ascii String List Bool Lia.
From stdpp Require Import base option gmap strings list.

Open Scope string_scope.

(** An [error] value is represented by its [Error()] text. *)
Definition error := string.

(** Go's [(value, error)] result pairs whose value is meaningless on error;
    [E] is the type of the errors. *)
Inductive result (E A : Type) : Type :=
| Ok (a : A)
| Err (e : E).
Arguments Ok {E A} a.
Arguments Err {E A} e.

(** ** Package [strings] of the Go standard library *)
Module gostrings.

Definition is_lower (c : ascii) : bool :=
  (97 <=? nat_of_ascii c)%nat && (nat_of_ascii c <=? 122)%nat.

Definition is_upper (c : ascii) : bool :=
  (65 <=? nat_of_ascii c)%nat && (nat_of_ascii c <=? 90)%nat.

(** [c < utf8.RuneSelf] *)
Definition is_ascii_byte (c : ascii) : bool := (nat_of_ascii c <? 128)%nat.

Fixpoint isASCII (s : string) : bool :=
  match s with
  | EmptyString => true
  | String c r => is_ascii_byte c && isASCII r
  end.

Fixpoint hasLower (s : string) : bool :=
  match s with
  | EmptyString => false
  | String c r => is_lower c || hasLower r
  end.

(** [c -= 'a' - 'A'] for a lower-case letter *)
Definition upper_byte (c : ascii) : ascii :=
  if is_lower c then ascii_of_nat (nat_of_ascii c - 32) else c.

Definition lower_byte (c : ascii) : ascii :=
  if is_upper c then ascii_of_nat (nat_of_ascii c + 32) else c.

Fixpoint map_bytes (f : ascii -> ascii) (s : string) : string :=
  match s with
  | EmptyString => EmptyString
  | String c r => String (f c) (map_bytes f r)
  end.

(** [strings.ToUpper]: the ASCII fast path is written out; a string with
    a byte [>= 0x80] goes through [strings.Map(unicode.ToUpper, s)], which
    is the parameter [unicode_upper]. *)
Definition ToUpper (unicode_upper : string -> string) (s : string) : string :=
  if isASCII s then
    if hasLower s then map_bytes upper_byte s else s
  else unicode_upper s.

(** [strings.HasPrefix] *)
Fixpoint HasPrefix (s p : string) {struct p} : bool :=
  match p, s with
  | EmptyString, _ => true
  | String a p', String b s' => Ascii.eqb a b && HasPrefix s' p'
  | String _ _, EmptyString => false
  end.

Fixpoint drop (n : nat) (s : string) : string :=
  match n, s with
  | O, _ => s
  | S n', String _ r => drop n' r
  | S _, EmptyString => EmptyString
  end.

(** [strings.TrimPrefix]: [s[len(prefix):]] when [s] starts with [prefix] *)
Definition TrimPrefix (s p : string) : string :=
  if HasPrefix s p then drop (String.length p) s else s.

(** [strings.Join] *)
Fixpoint Join (elems : list string) (sep : string) : string :=
  match elems with
  | [] => ""
  | [e] => e
  | e :: r => e +:+ sep +:+ Join r sep
  end.

(** Byte-wise comparison ignoring the case of ASCII letters. *)
Fixpoint equalFoldASCII (s t : string) : bool :=
  match s, t with
  | EmptyString, EmptyString => true
  | String a s', String b t' =>
      Ascii.eqb (lower_byte a) (lower_byte b) && equalFoldASCII s' t'
  | _, _ => false
  end.

(** The prefixes of a string, the shortest first. *)
Fixpoint prefixes (s : string) : list string :=
  match s with
  | EmptyString => [EmptyString]
  | String c r => EmptyString :: map (String c) (prefixes r)
  end.

(** The last byte of a string, if it has one. *)
Fixpoint last_byte (s : string) : option ascii :=
  match s with
  | EmptyString => None
  | String c EmptyString => Some c
  | String _ r => last_byte r
  end.

(** The 256 bytes. *)
Definition all_bytes : list ascii := map ascii_of_nat (seq 0 256).

End gostrings.

(** ** Package [config] *)
Module config.

(** [ArchiveExtensions] - list of available compression formats and
    associated file extensions *)
Definition ArchiveExtensions : gmap string string :=
  <["tar" := "tar"]> (
  <["lz4" := "tar.lz4"]> (
  <["bzip2" := "tar.bz2"]> (
  <["gzip" := "tar.gz"]> (
  <["sz" := "tar.sz"]> (
  <["xz" := "tar.xz"]> ∅))))).

(** Go's [m[k]]: the zero value when the key is missing *)
Definition map_index (m : gmap string string) (k : string) : string :=
  default "" (m !! k).

(** Go's [_, ok := m[k]] *)
Definition map_has (m : gmap string string) (k : string) : bool :=
  match m !! k with Some _ => true | None => false end.

Record GeneralConfig := {
  RemoteStorage : string;
  MaxFileSize : Z;
  DisableProgressBar : bool;
  BackupsToKeepLocal : Z;
  BackupsToKeepRemote : Z;
  LogLevel : string }.

Record GCSConfig := {
  gcs_CredentialsFile : string;
  gcs_CredentialsJSON : string;
  gcs_Bucket : string;
  gcs_Path : string;
  gcs_CompressionLevel : Z;
  gcs_CompressionFormat : string }.

Record AzureBlobConfig := {
  az_EndpointSuffix : string;
  az_AccountName : string;
  az_AccountKey : string;
  az_SharedAccessSignature : string;
  az_Container : string;
  az_Path : string;
  az_CompressionLevel : Z;
  az_CompressionFormat : string;
  az_SSEKey : string }.

Record S3Config := {
  s3_AccessKey : string;
  s3_SecretKey : string;
  s3_Bucket : string;
  s3_Endpoint : string;
  s3_Region : string;
  s3_ACL : string;
  s3_ForcePathStyle : bool;
  s3_Path : string;
  s3_DisableSSL : bool;
  s3_PartSize : Z;
  s3_CompressionLevel : Z;
  s3_CompressionFormat : string;
  s3_SSE : string;
  s3_DisableCertVerification : bool;
  s3_StorageClass : string }.

Record COSConfig := {
  cos_RowURL : string;
  cos_Timeout : string;
  cos_SecretID : string;
  cos_SecretKey : string;
  cos_Path : string;
  cos_CompressionFormat : string;
  cos_CompressionLevel : Z }.

Record FTPConfig := {
  ftp_Address : string;
  ftp_Timeout : string;
  ftp_Username : string;
  ftp_Password : string;
  ftp_TLS : bool;
  ftp_Path : string;
  ftp_CompressionFormat : string;
  ftp_CompressionLevel : Z }.

Record ClickHouseConfig := {
  ch_Username : string;
  ch_Password : string;
  ch_Host : string;
  ch_Port : Z;
  ch_DiskMapping : list (string * string);
  ch_SkipTables : list string;
  ch_Timeout : string;
  ch_FreezeByPart : bool;
  ch_Secure : bool;
  ch_SkipVerify : bool;
  ch_SyncReplicatedTables : bool }.

Record APIConfig := {
  api_ListenAddr : string;
  api_EnableMetrics : bool;
  api_EnablePprof : bool;
  api_Username : string;
  api_Password : string;
  api_Secure : bool;
  api_CertificateFile : string;
  api_PrivateKeyFile : string }.

(** [Config] - config file format *)
Record Config := {
  General : GeneralConfig;
  ClickHouse : ClickHouseConfig;
  S3 : S3Config;
  GCS : GCSConfig;
  COS : COSConfig;
  API : APIConfig;
  FTP : FTPConfig;
  AzureBlob : AzureBlobConfig }.

(** The backends the switch of [GetArchiveExtension] names. *)
Definition backendNames : list string := ["s3"; "gcs"; "cos"; "ftp"; "azblob"].

Definition GetArchiveExtension (cfg : Config) : string :=
  let rs := RemoteStorage (General cfg) in
  if rs =? "s3" then map_index ArchiveExtensions (s3_CompressionFormat (S3 cfg))
  else if rs =? "gcs" then map_index ArchiveExtensions (gcs_CompressionFormat (GCS cfg))
  else if rs =? "cos" then map_index ArchiveExtensions (cos_CompressionFormat (COS cfg))
  else if rs =? "ftp" then map_index ArchiveExtensions (ftp_CompressionFormat (FTP cfg))
  else if rs =? "azblob" then map_index ArchiveExtensions (az_CompressionFormat (AzureBlob cfg))
  else "".

Definition GetCompressionFormat (cfg : Config) : string :=
  let rs := RemoteStorage (General cfg) in
  if rs =? "s3" then s3_CompressionFormat (S3 cfg)
  else if rs =? "gcs" then gcs_CompressionFormat (GCS cfg)
  else if rs =? "cos" then cos_CompressionFormat (COS cfg)
  else if rs =? "ftp" then ftp_CompressionFormat (FTP cfg)
  else if rs =? "azblob" then az_CompressionFormat (AzureBlob cfg)
  else if rs =? "none" then "none"
  else "unknown".

(** [os.IsNotExist(err)] and the text of a file-system error *)
Record fs_error := {
  fs_text : error;
  IsNotExist : bool }.

(** What [ValidateConfig] and [LoadConfig] call outside the package. *)
Class Deps := {
  (** [strings.Map(unicode.ToUpper, s)], see [gostrings.ToUpper] *)
  unicode_upper : string -> string;
  (** [time.ParseDuration], in nanoseconds *)
  ParseDuration : string -> result error Z;
  (** [tls.LoadX509KeyPair(certFile, keyFile)] *)
  LoadX509KeyPair : string -> string -> result error unit;
  (** [s3.StorageClass_Values()] of the AWS SDK *)
  StorageClass_Values : list string;
  (** [ioutil.ReadFile]: the bytes read and the error *)
  ReadFile : string -> string * option fs_error;
  (** [yaml.Unmarshal(in, &cfg)]: the configuration after decoding *)
  yaml_Unmarshal : string -> Config -> Config * option error;
  (** [envconfig.Process] with the empty prefix: the configuration
      after the environment overlay *)
  envconfig_Process : Config -> Config * option error }.

(** The configuration [cfg] is what the file at [location], then the
    environment, make of the defaults, every stage having succeeded. *)
Definition overlaid `{Deps} (defaults : Config) (location : string) (cfg : Config) : Prop :=
  exists configYaml err cfg1,
    ReadFile location = (configYaml, err)
    /\ match err with Some e => IsNotExist e = true | None => True end
    /\ yaml_Unmarshal configYaml defaults = (cfg1, None)
    /\ envconfig_Process cfg1 = (cfg, None).

Section WithDeps.
Context `{Deps}.

(** The storage class [sc] is one of the enumerated ones up to case: the
    two have the same upper-case form. *)
Definition storageClassMatches (sc : string) : Prop :=
  exists v, In v StorageClass_Values
    /\ gostrings.ToUpper unicode_upper sc = gostrings.ToUpper unicode_upper v.

(** First check of [ValidateConfig]: the compression format. *)
Definition checkCompressionFormat (cfg : Config) : option error :=
  if negb (GetCompressionFormat cfg =? "none") then
    if negb (map_has ArchiveExtensions (GetCompressionFormat cfg)) then
      Some ("'" +:+ GetCompressionFormat cfg +:+ "' is unsupported compression format")
    else None
  else None.

(** [for _, storageClass := range s3.StorageClass_Values()] with its
    [break] *)
Fixpoint storageClassLoop (sc : string) (values : list string) : bool :=
  match values with
  | [] => false
  | storageClass :: rest =>
      if gostrings.ToUpper unicode_upper sc =? storageClass then true
      else storageClassLoop sc rest
  end.

(** Fifth check of [ValidateConfig]: the S3 storage class. *)
Definition checkStorageClass (cfg : Config) : option error :=
  let storageClassOk := storageClassLoop (s3_StorageClass (S3 cfg)) StorageClass_Values in
  if negb storageClassOk then
    Some ("'" +:+ s3_StorageClass (S3 cfg) +:+ "' is bad S3_STORAGE_CLASS, select one of: "
              +:+ gostrings.Join StorageClass_Values ", ")
  else None.

Definition checkDuration (text : string) : option error :=
  match ParseDuration text with
  | Err e => Some e
  | Ok _ => None
  end.

Definition checkTLS (cfg : Config) : option error :=
  if api_Secure (API cfg) then
    match LoadX509KeyPair (api_CertificateFile (API cfg)) (api_PrivateKeyFile (API cfg)) with
    | Err e => Some e
    | Ok _ => None
    end
  else None.

(** [if err := check; err != nil { return err }] *)
Definition andThen (c : option error) (k : option error) : option error :=
  match c with
  | Some e => Some e
  | None => k
  end.

(** The checks that follow the compression-format check. *)
Definition validateRest (cfg : Config) : option error :=
  andThen (checkDuration (ch_Timeout (ClickHouse cfg))) (
  andThen (checkDuration (cos_Timeout (COS cfg))) (
  andThen (checkDuration (ftp_Timeout (FTP cfg))) (
  andThen (checkStorageClass cfg) (
  andThen (checkTLS cfg)
  None)))).

Definition ValidateConfig (cfg : Config) : option error :=
  andThen (checkCompressionFormat cfg) (validateRest cfg).

Definition DefaultConfig : Config := {|
  General := {|
    RemoteStorage := "s3";
    MaxFileSize := 1024 * 1024 * 1024 * 1024;
    DisableProgressBar := false;
    BackupsToKeepLocal := 0;
    BackupsToKeepRemote := 0;
    LogLevel := "info" |};
  ClickHouse := {|
    ch_Username := "default";
    ch_Password := "";
    ch_Host := "localhost";
    ch_Port := 9000;
    ch_DiskMapping := [];
    ch_SkipTables := ["system.*"];
    ch_Timeout := "5m";
    ch_FreezeByPart := false;
    ch_Secure := false;
    ch_SkipVerify := false;
    ch_SyncReplicatedTables := true |};
  AzureBlob := {|
    az_EndpointSuffix := "core.windows.net";
    az_AccountName := "";
    az_AccountKey := "";
    az_SharedAccessSignature := "";
    az_Container := "";
    az_Path := "";
    az_CompressionLevel := 1;
    az_CompressionFormat := "tar";
    az_SSEKey := "" |};
  S3 := {|
    s3_AccessKey := "";
    s3_SecretKey := "";
    s3_Bucket := "";
    s3_Endpoint := "";
    s3_Region := "us-east-1";
    s3_ACL := "private";
    s3_ForcePathStyle := false;
    s3_Path := "";
    s3_DisableSSL := false;
    s3_PartSize := 512 * 1024 * 1024;
    s3_CompressionLevel := 1;
    s3_CompressionFormat := "tar";
    s3_SSE := "";
    s3_DisableCertVerification := false;
    (* s3.StorageClassStandard *)
    s3_StorageClass := "STANDARD" |};
  GCS := {|
    gcs_CredentialsFile := "";
    gcs_CredentialsJSON := "";
    gcs_Bucket := "";
    gcs_Path := "";
    gcs_CompressionLevel := 1;
    gcs_CompressionFormat := "tar" |};
  COS := {|
    cos_RowURL := "";
    cos_Timeout := "2m";
    cos_SecretID := "";
    cos_SecretKey := "";
    cos_Path := "";
    cos_CompressionFormat := "tar";
    cos_CompressionLevel := 1 |};
  API := {|
    api_ListenAddr := "localhost:7171";
    api_EnableMetrics := true;
    api_EnablePprof := false;
    api_Username := "";
    api_Password := "";
    api_Secure := false;
    api_CertificateFile := "";
    api_PrivateKeyFile := "" |};
  FTP := {|
    ftp_Address := "";
    ftp_Timeout := "2m";
    ftp_Username := "";
    ftp_Password := "";
    ftp_TLS := false;
    ftp_Path := "";
    ftp_CompressionFormat := "tar";
    ftp_CompressionLevel := 1 |} |}.

(** [err != nil && !os.IsNotExist(err)] *)
Definition openFailed (err : option fs_error) : bool :=
  match err with
  | Some e => negb (IsNotExist e)
  | None => false
  end.

Definition fs_error_text (err : option fs_error) : string :=
  match err with
  | Some e => fs_text e
  | None => "<nil>"
  end.

(** [LoadConfig] - load config from file.  The result is Go's pair
    of a [Config] pointer and an [error]; [None] in the first component is the [nil]
    pointer, [None] in the second the [nil] error. *)
Definition LoadConfig (configLocation : string) : option Config * option error :=
  let cfg := DefaultConfig in
  let '(configYaml, err) := ReadFile configLocation in
  if openFailed err then
    (None, Some ("can't open config file: " +:+ fs_error_text err))
  else
    let '(cfg, err) := yaml_Unmarshal configYaml cfg in
    match err with
    | Some e => (None, Some ("can't parse config file: " +:+ e))
    | None =>
        let '(cfg, err) := envconfig_Process cfg in
        match err with
        | Some e => (None, Some e)
        | None => (Some cfg, ValidateConfig cfg)
        end
    end.

End WithDeps.

End config.

(** ** Package [time] of the Go standard library: [ParseDuration] *)
Module gotime.

Definition is_digit (c : ascii) : bool :=
  (48 <=? nat_of_ascii c)%nat && (nat_of_ascii c <=? 57)%nat.

(** [quote(s)]: the text between double quotes *)
Definition quote (s : string) : string :=
  String (ascii_of_nat 34) (s +:+ String (ascii_of_nat 34) EmptyString).

(** [leadingInt]: the leading digits of [s] as a number, and the rest;
    [None] when the number exceeds [1<<63]. *)
Fixpoint leadingInt (s : string) (x : Z) : option (Z * string) :=
  match s with
  | String c r =>
      if is_digit c then
        if (x >? 2 ^ 63 / 10)%Z then None
        else
          let x' := (x * 10 + (Z.of_nat (nat_of_ascii c) - 48))%Z in
          if (x' >? 2 ^ 63)%Z then None else leadingInt r x'
      else Some (x, s)
  | EmptyString => Some (x, s)
  end.

(** The unit: the bytes up to the next ['.'] or digit. *)
Fixpoint span_unit (s : string) : string * string :=
  match s with
  | String c r =>
      if Ascii.eqb c "." || is_digit c then (EmptyString, s)
      else let '(u, rest) := span_unit r in (String c u, rest)
  | EmptyString => (EmptyString, EmptyString)
  end.

(** [unitMap], its ASCII keys, in nanoseconds *)
Definition unitMap (u : string) : option Z :=
  if u =? "ns" then Some 1%Z
  else if u =? "us" then Some 1000%Z
  else if u =? "ms" then Some 1000000%Z
  else if u =? "s" then Some 1000000000%Z
  else if u =? "m" then Some 60000000000%Z
  else if u =? "h" then Some 3600000000000%Z
  else None.

(** The loop [for s != ""] of [ParseDuration] over groups of digits and a
    unit.  A group with a fractional part (a ['.']) is computed in floating
    point by Go and is outside this model: it is refused here. *)
Fixpoint groups (fuel : nat) (orig s : string) (d : Z) : result error Z :=
  match fuel with
  | O => Err ("time: invalid duration " +:+ quote orig)
  | S fuel' =>
      match s with
      | EmptyString => Ok d
      | String c _ =>
          if negb (is_digit c) then Err ("time: invalid duration " +:+ quote orig)
          else
            match leadingInt s 0 with
            | None => Err ("time: invalid duration " +:+ quote orig)
            | Some (v, s1) =>
                let '(u, s2) := span_unit s1 in
                if u =? EmptyString then
                  Err ("time: missing unit in duration " +:+ quote orig)
                else
                  match unitMap u with
                  | None =>
                      Err ("time: unknown unit " +:+ quote u +:+ " in duration " +:+ quote orig)
                  | Some unit =>
                      if (v >? 2 ^ 63 / unit)%Z then
                        Err ("time: invalid duration " +:+ quote orig)
                      else
                        let d' := (d + v * unit)%Z in
                        if (d' >? 2 ^ 63)%Z then
                          Err ("time: invalid duration " +:+ quote orig)
                        else groups fuel' orig s2 d'
                  end
            end
      end
  end.

(** [time.ParseDuration] on durations written without a fractional part,
    for example ["5m"], ["1h30m"], ["-10s"], ["0"]. *)
Definition ParseDuration (orig : string) : result error Z :=
  let '(neg, s) :=
    match orig with
    | String c r =>
        if Ascii.eqb c "-" then (true, r)
        else if Ascii.eqb c "+" then (false, r)
        else (false, orig)
    | EmptyString => (false, orig)
    end in
  if s =? "0" then Ok 0%Z
  else if s =? EmptyString then Err ("time: invalid duration " +:+ quote orig)
  else
    match groups (S (String.length s)) orig s 0 with
    | Err e => Err e
    | Ok d =>
        if neg then Ok (- d)%Z
        else if (d >? 2 ^ 63 - 1)%Z then Err ("time: invalid duration " +:+ quote orig)
        else Ok d
    end.

End gotime.

(** ** A reference environment for [config]

    No configuration file, no TLS key material, the AWS SDK's list of
    storage classes, and an environment that may set [REMOTE_STORAGE] and
    [S3_STORAGE_CLASS]. *)
Module config_env.
Import config.

(** [s3.StorageClass_Values()] of aws-sdk-go *)
Definition aws_StorageClass_Values : list string :=
  ["STANDARD"; "REDUCED_REDUNDANCY"; "STANDARD_IA"; "ONEZONE_IA";
   "INTELLIGENT_TIERING"; "GLACIER"; "DEEP_ARCHIVE"; "OUTPOSTS"].

Definition set_RemoteStorage (v : string) (cfg : Config) : Config :=
  let g := General cfg in
  {| General := {| RemoteStorage := v;
                   MaxFileSize := MaxFileSize g;
                   DisableProgressBar := DisableProgressBar g;
                   BackupsToKeepLocal := BackupsToKeepLocal g;
                   BackupsToKeepRemote := BackupsToKeepRemote g;
                   LogLevel := LogLevel g |};
     ClickHouse := ClickHouse cfg; S3 := S3 cfg; GCS := GCS cfg; COS := COS cfg;
     API := API cfg; FTP := FTP cfg; AzureBlob := AzureBlob cfg |}.

Definition set_S3_StorageClass (v : string) (cfg : Config) : Config :=
  let s := S3 cfg in
  {| General := General cfg; ClickHouse := ClickHouse cfg;
     S3 := {| s3_AccessKey := s3_AccessKey s; s3_SecretKey := s3_SecretKey s;
              s3_Bucket := s3_Bucket s; s3_Endpoint := s3_Endpoint s;
              s3_Region := s3_Region s; s3_ACL := s3_ACL s;
              s3_ForcePathStyle := s3_ForcePathStyle s; s3_Path := s3_Path s;
              s3_DisableSSL := s3_DisableSSL s; s3_PartSize := s3_PartSize s;
              s3_CompressionLevel := s3_CompressionLevel s;
              s3_CompressionFormat := s3_CompressionFormat s;
              s3_SSE := s3_SSE s;
              s3_DisableCertVerification := s3_DisableCertVerification s;
              s3_StorageClass := v |};
     GCS := GCS cfg; COS := COS cfg; API := API cfg; FTP := FTP cfg;
     AzureBlob := AzureBlob cfg |}.

Definition set_S3_CompressionFormat (v : string) (cfg : Config) : Config :=
  let s := S3 cfg in
  {| General := General cfg; ClickHouse := ClickHouse cfg;
     S3 := {| s3_AccessKey := s3_AccessKey s; s3_SecretKey := s3_SecretKey s;
              s3_Bucket := s3_Bucket s; s3_Endpoint := s3_Endpoint s;
              s3_Region := s3_Region s; s3_ACL := s3_ACL s;
              s3_ForcePathStyle := s3_ForcePathStyle s; s3_Path := s3_Path s;
              s3_DisableSSL := s3_DisableSSL s; s3_PartSize := s3_PartSize s;
              s3_CompressionLevel := s3_CompressionLevel s;
              s3_CompressionFormat := v;
              s3_SSE := s3_SSE s;
              s3_DisableCertVerification := s3_DisableCertVerification s;
              s3_StorageClass := s3_StorageClass s |};
     GCS := GCS cfg; COS := COS cfg; API := API cfg; FTP := FTP cfg;
     AzureBlob := AzureBlob cfg |}.

(** The variables of the process environment, as [os.Environ] has them. *)
Fixpoint getenv (environ : list (string * string)) (k : string) : option string :=
  match environ with
  | [] => None
  | (k', v) :: r => if k' =? k then Some v else getenv r k
  end.

Definition overlay (environ : list (string * string)) (k : string)
    (set : string -> Config -> Config) (cfg : Config) : Config :=
  match getenv environ k with
  | Some v => set v cfg
  | None => cfg
  end.

Definition refDeps (environ : list (string * string)) : Deps := {|
  unicode_upper := fun s => s;
  ParseDuration := gotime.ParseDuration;
  LoadX509KeyPair := fun _ _ =>
    Err "tls: failed to find any PEM data in certificate input";
  StorageClass_Values := aws_StorageClass_Values;
  ReadFile := fun location =>
    (EmptyString,
     Some {| fs_text := "open " +:+ location +:+ ": no such file or directory";
             IsNotExist := true |});
  yaml_Unmarshal := fun data cfg =>
    if data =? EmptyString then (cfg, None)
    else (cfg, Some "yaml: unmarshal errors");
  envconfig_Process := fun cfg =>
    (overlay environ "S3_COMPRESSION_FORMAT" set_S3_CompressionFormat
      (overlay environ "S3_STORAGE_CLASS" set_S3_StorageClass
        (overlay environ "REMOTE_STORAGE" set_RemoteStorage cfg)), None) |}.

End config_env.

(** ** Package [path] of the Go standard library *)
Module gopath.

(** The elements of a path between its slashes. *)
Fixpoint split (s : string) : list string :=
  match s with
  | EmptyString => [EmptyString]
  | String c r =>
      if Ascii.eqb c "/" then EmptyString :: split r
      else
        match split r with
        | e :: es => String c e :: es
        | [] => [String c EmptyString]
        end
  end.

(** One element read by [Clean]; [out] holds the elements written so far,
    the last one first.  An empty element and ["."] are dropped; [".."]
    removes the last element written unless there is none to remove, in
    which case it is kept in a relative path and dropped in a rooted one. *)
Definition clean_step (rooted : bool) (out : list string) (e : string) : list string :=
  if (e =? EmptyString) || (e =? ".") then out
  else if e =? ".." then
    match out with
    | top :: below => if top =? ".." then e :: out else below
    | [] => if rooted then out else [e]
    end
  else e :: out.

Definition is_rooted (path : string) : bool :=
  match path with
  | String c _ => Ascii.eqb c "/"
  | EmptyString => false
  end.

(** [path.Clean] *)
Definition Clean (path : string) : string :=
  if path =? EmptyString then "."
  else
    let rooted := is_rooted path in
    let out := rev (fold_left (clean_step rooted) (split path) []) in
    if rooted then "/" +:+ gostrings.Join out "/"
    else
      match out with
      | [] => "."
      | _ => gostrings.Join out "/"
      end.

(** The buffer [Join] fills before cleaning it: an element is skipped
    while the buffer and the element are empty. *)
Fixpoint join_buf (buf : string) (elem : list string) : string :=
  match elem with
  | [] => buf
  | e :: r =>
      if negb (buf =? EmptyString) || negb (e =? EmptyString) then
        join_buf ((if negb (buf =? EmptyString) then buf +:+ "/" else buf) +:+ e) r
      else join_buf buf r
  end.

(** An element as [Clean] writes it: not empty and without a slash. *)
Definition is_element (e : string) : Prop :=
  e <> EmptyString /\ ~ In "/"%char (list_ascii_of_string e).

(** [path.Join] *)
Definition Join (elem : list string) : string :=
  let buf := join_buf EmptyString elem in
  if buf =? EmptyString then EmptyString else Clean buf.

End gopath.

(** ** Package [new_storage]: the COS adapter *)
Module new_storage.

(** [time.Time], as seconds since January 1, year 1, UTC; the zero value
    [time.Time{}] is [0]. *)
Definition Time := Z.
Definition zeroTime : Time := 0%Z.

(** What the COS SDK returns as an error: a [*cos.ErrorResponse] with the
    provider's error code, or any other error (transport, encoding). *)
Inductive sdk_error :=
| ErrorResponse (Code Message : string)
| OtherError (text : string).

(** The errors of the adapter: the sentinel [ErrNotFound] of the package
    and the errors of the SDK, passed on as they are. *)
Inductive error :=
| ErrNotFound
| SdkError (e : sdk_error).

(** [http.Header.Get] on a key in canonical form *)
Definition Header_Get (h : gmap string (list string)) (key : string) : string :=
  match h !! key with
  | Some (v :: _) => v
  | _ => EmptyString
  end.

(** The parts of [*cos.Response] the adapter reads. *)
Record Response := {
  Header : gmap string (list string);
  ContentLength : Z;
  Request_URL_Path : string;
  Body : string }.

Record BucketGetOptions := {
  Prefix : string;
  Delimiter : string }.

(** [cos.Object] *)
Record Object := {
  Key : string;
  LastModified : string;
  Size : Z }.

Record BucketGetResult := {
  CommonPrefixes : list string;
  Contents : list Object }.

(** The requests of the SDK's client, as sent to the provider. *)
Inductive request :=
| ObjectGet (name : string)
| ObjectHead (name : string)
| ObjectDelete (name : string)
| ObjectPut (name : string)
| BucketGet (opt : BucketGetOptions)
| BucketHead.


(** The provider's answers to the client's calls. *)
Class Client := {
  Object_Get : string -> result sdk_error Response;
  Object_Delete : string -> option sdk_error;
  Object_Put : string -> string -> option sdk_error;
  Bucket_Get : BucketGetOptions -> result sdk_error BucketGetResult;
  Bucket_Head : option sdk_error }.

(** [time.Parse(layout, value)]; Go returns [time.Time{}] with every error. *)
Class TimeParser := {
  time_Parse : string -> string -> result string Time }.

(** A computation that sends requests: the requests sent, in order, and
    the value returned. *)
Definition M (A : Type) : Type := list request * A.

Definition ret {A} (a : A) : M A := ([], a).

Definition bind {A B} (m : M A) (k : A -> M B) : M B :=
  let '(sent, a) := m in
  let '(sent', b) := k a in
  ((sent ++ sent')%list, b).

(** One call of the client: the request and the provider's answer. *)
Definition call {A} (r : request) (answer : A) : M A := ([r], answer).

Notation "x <- m ;; k" := (bind m (fun x => k))
  (at level 100, m at next level, right associativity).

Record COS := {
  Config : config.COSConfig;
  Debug : bool }.

Record cosFile := {
  size : Z;
  lastModified : Time;
  name : string }.

Definition timeFormats : list string :=
  ["Mon, 02 Jan 2006 15:04:05 GMT";
   (* time.RFC850 *) "Monday, 02-Jan-06 15:04:05 MST";
   (* time.ANSIC *) "Mon Jan _2 15:04:05 2006";
   (* time.RFC3339 *) "2006-01-02T15:04:05Z07:00"].

Section Adapter.
Context `{Client} `{TimeParser}.

(** [t, err = time.Parse(layout, text)] *)
Definition parse_pair (layout text : string) : Time * option string :=
  match time_Parse layout text with
  | Ok t => (t, None)
  | Err e => (zeroTime, Some e)
  end.

(** The loop of [parseTime] over the layouts left, with the named results
    [t] and [err] as they stand. *)
Fixpoint parseTimeLoop (layouts : list string) (text : string)
    (t : Time) (err : option string) : Time * option string :=
  match layouts with
  | [] => (t, err)
  | layout :: rest =>
      let '(t, err) := parse_pair layout text in
      match err with
      | None => (t, err)
      | Some _ => parseTimeLoop rest text t err
      end
  end.

Definition parseTime (text : string) : Time * option string :=
  parseTimeLoop timeFormats text zeroTime None.

Definition StatFile (c : COS) (key : string) : M (result error cosFile) :=
  let p := gopath.Join [config.cos_Path (Config c); key] in
  r <- call (ObjectGet p) (Object_Get p) ;;
  match r with
  | Err err =>
      match err with
      | ErrorResponse code _ =>
          if code =? "NoSuchKey" then ret (Err ErrNotFound)
          else ret (Err (SdkError err))
      | OtherError _ => ret (Err (SdkError err))
      end
  | Ok resp =>
      let '(modifiedTime, _) := parseTime (Header_Get (Header resp) "Date") in
      ret (Ok {| size := ContentLength resp;
                 name := Request_URL_Path resp;
                 lastModified := modifiedTime |})
  end.

Definition DeleteFile (c : COS) (key : string) : M (option error) :=
  let p := gopath.Join [config.cos_Path (Config c); key] in
  err <- call (ObjectDelete p) (Object_Delete p) ;;
  ret (option_map SdkError err).

Definition GetFileReader (c : COS) (key : string) : M (result error string) :=
  let p := gopath.Join [config.cos_Path (Config c); key] in
  r <- call (ObjectGet p) (Object_Get p) ;;
  match r with
  | Err err => ret (Err (SdkError err))
  | Ok resp => ret (Ok (Body resp))
  end.

Definition PutFile (c : COS) (key : string) (r : string) : M (option error) :=
  let p := gopath.Join [config.cos_Path (Config c); key] in
  err <- call (ObjectPut p) (Object_Put p r) ;;
  ret (option_map SdkError err).

(** The visitor [process] is a closure: it is run on its own state [S];
    the error it returns is dropped by [Walk]. *)
Fixpoint visit_dirs {S} (process : cosFile -> S -> S * option error)
    (prefix : string) (dirs : list string) (s : S) : S :=
  match dirs with
  | [] => s
  | dir :: rest =>
      let '(s, _) :=
        process {| size := 0%Z; lastModified := zeroTime;
                   name := gostrings.TrimPrefix dir prefix |} s in
      visit_dirs process prefix rest s
  end.

Fixpoint visit_contents {S} (process : cosFile -> S -> S * option error)
    (prefix : string) (contents : list Object) (s : S) : S :=
  match contents with
  | [] => s
  | v :: rest =>
      let '(modifiedTime, _) := parseTime (LastModified v) in
      let '(s, _) :=
        process {| name := gostrings.TrimPrefix (Key v) prefix;
                   lastModified := modifiedTime;
                   size := Size v |} s in
      visit_contents process prefix rest s
  end.

Definition Walk {S} (c : COS) (cosPath : string) (recursuve : bool)
    (process : cosFile -> S -> S * option error) (s : S) : M (S * option error) :=
  let prefix := gopath.Join [config.cos_Path (Config c); cosPath] in
  let delimiter := if negb recursuve then "/" else EmptyString in
  let opt := {| Delimiter := delimiter; Prefix := prefix |} in
  r <- call (BucketGet opt) (Bucket_Get opt) ;;
  match r with
  | Err err => ret (s, Some (SdkError err))
  | Ok res =>
      let s := visit_dirs process prefix (CommonPrefixes res) s in
      let s := visit_contents process prefix (Contents res) s in
      ret (s, None)
  end.

End Adapter.

(** What [Connect] calls outside the package: [url.Parse],
    [time.ParseDuration] (in nanoseconds) and [cos.NewClient] on the base
    URL, the timeout of the HTTP client, the credentials and the debug
    flag of the transport. *)
Class Dialer := {
  URL : Type;
  url_Parse : string -> result string URL;
  time_ParseDuration : string -> result string Z;
  cos_NewClient : URL -> Z -> string -> string -> bool -> Client }.

(** The error [Connect] returns, by the call it comes from. *)
Inductive connect_error :=
| BadURL (e : string)
| BadTimeout (e : string)
| ProbeFailed (e : sdk_error).

(** [Connect] - connect to cos.  The first component of the result is the
    client assigned to [c.client], [None] when the field is left as it
    was. *)
Definition Connect `{Dialer} (c : COS) : M (option Client * option connect_error) :=
  match url_Parse (config.cos_RowURL (Config c)) with
  | Err e => ret (None, Some (BadURL e))
  | Ok u =>
      match time_ParseDuration (config.cos_Timeout (Config c)) with
      | Err e => ret (None, Some (BadTimeout e))
      | Ok timeout =>
          let client :=
            cos_NewClient u timeout (config.cos_SecretID (Config c))
              (config.cos_SecretKey (Config c)) (Debug c) in
          (* check bucket exists *)
          err <- call BucketHead (@Bucket_Head client) ;;
          ret (Some client, option_map ProbeFailed err)
      end
  end.

Definition Kind (c : COS) : string := "COS".


(** The file [Walk] hands to the visitor for a common prefix, and for an
    object of the listing. *)
Definition dir_entry (prefix dir : string) : cosFile :=
  {| size := 0%Z; lastModified := zeroTime;
     name := gostrings.TrimPrefix dir prefix |}.

Definition file_entry `{TimeParser} (prefix : string) (v : Object) : cosFile :=
  {| name := gostrings.TrimPrefix (Key v) prefix;
     lastModified := fst (parseTime (LastModified v));
     size := Size v |}.

(** The visitor that records the files it is called with, in order. *)
Definition record_visit (f : cosFile) (seen : list cosFile) : list cosFile * option error :=
  ((seen ++ [f])%list, None).

End new_storage.

(** ** A reference provider for [new_storage]

    A bucket held in memory, answering as the provider documents its
    object and bucket requests, and a [time.Parse] known on sample values. *)
Module storage_env.
Import new_storage.

Record stored := {
  skey : string;
  smodified : string;
  sbody : string }.

Fixpoint find_object (objs : list stored) (name : string) : option stored :=
  match objs with
  | [] => None
  | o :: rest => if skey o =? name then Some o else find_object rest name
  end.

(** The common prefix a key is listed under: the prefix and what follows
    it up to and including the first delimiter, if there is one. *)
Definition group_of (prefix delimiter key : string) : option string :=
  if delimiter =? EmptyString then None
  else
    let rest := gostrings.drop (String.length prefix) key in
    match String.index 0 delimiter rest with
    | Some i =>
        Some (prefix +:+ String.substring 0 (i + String.length delimiter) rest)
    | None => None
    end.

Definition as_object (o : stored) : Object :=
  {| Key := skey o;
     LastModified := smodified o;
     Size := Z.of_nat (String.length (sbody o)) |}.

(** GET Bucket: the keys that start with the prefix, in the order of the
    bucket (sorted by key); with a delimiter, keys that share what follows
    the prefix up to the delimiter are rolled up into one common prefix. *)
Fixpoint listing (objs : list stored) (prefix delimiter : string) : BucketGetResult :=
  match objs with
  | [] => {| CommonPrefixes := []; Contents := [] |}
  | o :: rest =>
      let res := listing rest prefix delimiter in
      if gostrings.HasPrefix (skey o) prefix then
        match group_of prefix delimiter (skey o) with
        | Some g =>
            {| CommonPrefixes :=
                 if existsb (String.eqb g) (CommonPrefixes res)
                 then CommonPrefixes res else g :: CommonPrefixes res;
               Contents := Contents res |}
        | None =>
            {| CommonPrefixes := CommonPrefixes res;
               Contents := as_object o :: Contents res |}
        end
      else res
  end.

(** The provider with the objects [objs] in the bucket; [now] is the date
    it stamps its responses with.  A missing key answers GET Object with
    the error code [NoSuchKey] and DELETE Object with success. *)
Definition memClient (now : string) (objs : list stored) : Client := {|
  Object_Get := fun name =>
    match find_object objs name with
    | Some o =>
        Ok {| Header := <["Date" := [now]]> (<["Last-Modified" := [smodified o]]> ∅);
              ContentLength := Z.of_nat (String.length (sbody o));
              Request_URL_Path := "/" +:+ name;
              Body := sbody o |}
    | None => Err (ErrorResponse "NoSuchKey" "The specified key does not exist.")
    end;
  Object_Delete := fun _ => None;
  Object_Put := fun _ _ => None;
  Bucket_Get := fun opt => Ok (listing objs (Prefix opt) (Delimiter opt));
  Bucket_Head := None |}.

(** [time.Parse] on three sample values of March 4, 2021, 05:06:07 UTC. *)
Definition refTimeParser : TimeParser := {|
  time_Parse := fun layout value =>
    if (layout =? "Mon, 02 Jan 2006 15:04:05 GMT")
       && (value =? "Thu, 04 Mar 2021 05:06:07 GMT") then Ok 63750431167%Z
    else if (layout =? "2006-01-02T15:04:05Z07:00")
       && ((value =? "2021-03-04T05:06:07Z") || (value =? "2021-03-04T05:06:07.000Z"))
    then Ok 63750431167%Z
    else Err ("parsing time " +:+ gotime.quote value +:+ " as "
                +:+ gotime.quote layout +:+ ": cannot parse") |}.

(** The namespace of two keys under [a/]. *)
Definition two_keys : list stored :=
  [ {| skey := "a/b/file1"; smodified := "2021-03-04T05:06:07.000Z"; sbody := "one" |};
    {| skey := "a/c/file2"; smodified := "2021-03-04T05:06:07.000Z"; sbody := "two2" |} ].

(** The names [Walk] calls the visitor with when the listing is made under
    [prefix] with [delimiter]: the common prefixes, then the keys. *)
Definition walk_names (objs : list stored) (prefix delimiter : string) : list string :=
  (map (fun dir => gostrings.TrimPrefix dir prefix)
       (CommonPrefixes (listing objs prefix delimiter))
   ++ map (fun v => gostrings.TrimPrefix (Key v) prefix)
       (Contents (listing objs prefix delimiter)))%list.

(** A dialer whose [url.Parse] refuses a text that starts with a colon
    (a missing protocol scheme) and whose client is the provider of the
    objects [objs]. *)
Definition refDialer (now : string) (objs : list stored) : Dialer := {|
  URL := string;
  url_Parse := fun raw =>
    if gostrings.HasPrefix raw ":" then
      Err ("parse " +:+ gotime.quote raw +:+ ": missing protocol scheme")
    else Ok raw;
  time_ParseDuration := gotime.ParseDuration;
  cos_NewClient := fun _ _ _ _ _ => memClient now objs |}.

Definition cos0 : COS := {| Config := config.COS config.DefaultConfig; Debug := false |}.

End storage_env.

(** ** Package [metadata] *)
Module metadata.

(** [uint64(n)] *)
Definition uint64 (n : Z) : Z := (n mod 2 ^ 64)%Z.

(** The struct [TableMetadata] and what [Load] calls outside the package. *)
Class Deps := {
  TableMetadata : Type;
  (** [ioutil.ReadFile]: the bytes read and the error *)
  ReadFile : string -> string * option error;
  (** [json.Unmarshal(data, tm)]: the struct after decoding, and the error *)
  json_Unmarshal : string -> TableMetadata -> TableMetadata * option error }.

Section WithDeps.
Context `{Deps}.

(** [tm.Load(location)]: the receiver after the call, the size and the
    error. *)
Definition Load (tm : TableMetadata) (location : string)
    : TableMetadata * (Z * option error) :=
  let '(data, err) := ReadFile location in
  match err with
  | Some e => (tm, (0%Z, Some e))
  | None =>
      let '(tm, err) := json_Unmarshal data tm in
      match err with
      | Some e => (tm, (0%Z, Some e))
      | None => (tm, (uint64 (Z.of_nat (String.length data)), None))
      end
  end.

End WithDeps.

(** A file system with one file, and a decoder that accepts the empty
    JSON object only. *)
Definition refDeps : Deps := {|
  TableMetadata := list (string * string);
  ReadFile := fun location =>
    if location =? "metadata/default/t.json" then ("{}", None)
    else (EmptyString, Some ("open " +:+ location +:+ ": no such file or directory"));
  json_Unmarshal := fun data tm =>
    if data =? "{}" then (tm, None)
    else (tm, Some "invalid character looking for beginning of value") |}.

End metadata.


(** * Properties *)

(** ** Strings *)
Section StringFacts.
Import gostrings.

Lemma all_bytes_complete (a : ascii) : In a all_bytes.
Proof.
  unfold all_bytes. apply in_map_iff. exists (nat_of_ascii a). split.
  - apply ascii_nat_embedding.
  - apply in_seq. pose proof (nat_ascii_bounded a). lia.
Qed.

Lemma byte_fold_table :
  forallb (fun a => forallb (fun b =>
    implb (negb (is_lower b))
      (Bool.eqb (Ascii.eqb (upper_byte a) b)
                (Ascii.eqb (lower_byte a) (lower_byte b)))) all_bytes) all_bytes = true.
Proof. vm_compute. reflexivity. Qed.

Lemma upper_byte_fold (a b : ascii) :
  is_lower b = false ->
  (upper_byte a = b <-> lower_byte a = lower_byte b).
Proof.
  intros Hb. pose proof byte_fold_table as T.
  rewrite forallb_forall in T. specialize (T a (all_bytes_complete a)).
  rewrite forallb_forall in T. specialize (T b (all_bytes_complete b)).
  rewrite Hb in T. simpl in T. apply Bool.eqb_prop in T.
  rewrite <- !Ascii.eqb_eq. rewrite T. tauto.
Qed.

Lemma map_upper_fold (s v : string) :
  hasLower v = false ->
  (map_bytes upper_byte s = v <-> equalFoldASCII s v = true).
Proof.
  revert v. induction s as [|a s IH]; intros [|b v] Hv; simpl in *;
    try (split; [discriminate | discriminate]); try tauto.
  apply orb_false_iff in Hv as [Hb Hv].
  rewrite andb_true_iff, Ascii.eqb_eq, <- (IH v Hv), <- (upper_byte_fold a b Hb).
  split.
  - intros E. injection E as -> ->. tauto.
  - intros [-> ->]. reflexivity.
Qed.

Lemma map_upper_id (s : string) :
  hasLower s = false -> map_bytes upper_byte s = s.
Proof.
  induction s as [|a s IH]; simpl; [reflexivity|].
  intros Hs. apply orb_false_iff in Hs as [Ha Hs].
  unfold upper_byte at 1. rewrite Ha, (IH Hs). reflexivity.
Qed.

Lemma ToUpper_ascii (u : string -> string) (s : string) :
  isASCII s = true -> ToUpper u s = map_bytes upper_byte s.
Proof.
  intros Hs. unfold ToUpper. rewrite Hs.
  destruct (hasLower s) eqn:E; [reflexivity|]. symmetry. now apply map_upper_id.
Qed.

Lemma ToUpper_fixed (u : string -> string) (v : string) :
  isASCII v = true -> hasLower v = false -> ToUpper u v = v.
Proof. intros Ha Hl. unfold ToUpper. now rewrite Ha, Hl. Qed.

Lemma HasPrefix_prefixes (s p : string) :
  HasPrefix s p = true -> In p (prefixes s).
Proof.
  revert p. induction s as [|c s IH]; intros [|d p]; simpl; try tauto; try discriminate.
  intros E. apply andb_true_iff in E as [Ec Ep]. apply Ascii.eqb_eq in Ec. subst d.
  right. apply in_map. now apply IH.
Qed.

End StringFacts.

(** ** Paths *)
Section PathFacts.
Import gopath.

Lemma split_no_slash (s e : string) :
  In e (split s) -> ~ In "/"%char (list_ascii_of_string e).
Proof.
  revert e. induction s as [|c s IH]; simpl; intros e.
  - intros [<-|[]]. simpl. tauto.
  - destruct (Ascii.eqb_spec c "/") as [->|N].
    + intros [<-|Hin]; [simpl; tauto | now apply IH].
    + destruct (split s) as [|e0 es] eqn:E.
      * intros [<-|[]]. simpl. intros [?|[]]. congruence.
      * intros [<-|Hin].
        -- simpl. intros [?|Hin]; [congruence|]. revert Hin. apply IH. now left.
        -- apply IH. now right.
Qed.

Lemma clean_step_elements (rooted : bool) (out : list string) (e : string) :
  ~ In "/"%char (list_ascii_of_string e) ->
  (forall x, In x out -> is_element x) ->
  forall x, In x (clean_step rooted out e) -> is_element x.
Proof.
  intros He Hout x. unfold clean_step.
  destruct (String.eqb_spec e EmptyString) as [E0|E0]; simpl; [apply Hout|].
  destruct (String.eqb_spec e ".") as [E1|E1]; simpl; [apply Hout|].
  destruct (String.eqb_spec e "..") as [E2|E2].
  - destruct out as [|top below].
    + destruct rooted; [intros []|]. intros [<-|[]]. now split.
    + destruct (top =? ".."); intros Hin.
      * destruct Hin as [<-|Hin]; [now split | now apply Hout].
      * apply Hout. now right.
  - intros [<-|Hin]; [now split | now apply Hout].
Qed.

Lemma fold_clean_step_elements (rooted : bool) (elems out : list string) :
  (forall e, In e elems -> ~ In "/"%char (list_ascii_of_string e)) ->
  (forall x, In x out -> is_element x) ->
  forall x, In x (fold_left (clean_step rooted) elems out) -> is_element x.
Proof.
  revert out. induction elems as [|e elems IH]; intros out He Hout; simpl; [exact Hout|].
  apply IH.
  - intros e' Hin. apply He. now right.
  - apply clean_step_elements; [apply He; now left | exact Hout].
Qed.

Lemma Join_elements_not_empty (out : list string) :
  out <> [] -> (forall x, In x out -> is_element x) ->
  gostrings.Join out "/" <> EmptyString.
Proof.
  destruct out as [|e out]; [congruence|]. intros _ Hall.
  destruct (Hall e (or_introl eq_refl)) as [Hne _].
  destruct e as [|c e]; [congruence|].
  destruct out; simpl; discriminate.
Qed.

Lemma Join_elements_not_a_slash (out : list string) :
  (forall x, In x out -> is_element x) ->
  gostrings.Join out "/" <> "a/".
Proof.
  destruct out as [|e out]; [discriminate|]. intros Hall.
  destruct (Hall e (or_introl eq_refl)) as [Hne Hns].
  destruct out as [|e' out].
  - simpl. intros ->. apply Hns. simpl. tauto.
  - change (gostrings.Join (e :: e' :: out) "/")
      with (e +:+ "/" +:+ gostrings.Join (e' :: out) "/").
    assert (J : gostrings.Join (e' :: out) "/" <> EmptyString).
    { apply Join_elements_not_empty; [discriminate|].
      intros x Hin. apply Hall. now right. }
    revert J. generalize (gostrings.Join (e' :: out) "/"). intros rest J.
    destruct e as [|c [|c' e]]; [congruence| |]; cbv [String.append].
    + intros [= _ E]. congruence.
    + intros [= _ E _]. apply Hns. simpl. tauto.
Qed.

Lemma Clean_not_a_slash (path : string) : Clean path <> "a/".
Proof.
  unfold Clean. destruct (path =? EmptyString); [discriminate|].
  assert (Hout : forall x,
            In x (rev (fold_left (clean_step (is_rooted path)) (split path) [])) ->
            is_element x).
  { intros x Hin. apply in_rev in Hin. revert x Hin.
    apply fold_clean_step_elements; [apply split_no_slash | intros x []]. }
  destruct (is_rooted path).
  - simpl. discriminate.
  - destruct (rev _) as [|e out] eqn:E; [discriminate|].
    now apply Join_elements_not_a_slash.
Qed.

(** [path.Join] never returns a name with the trailing slash of [a/]. *)
Lemma Join_not_a_slash (elem : list string) : Join elem <> "a/".
Proof.
  unfold Join. destruct (join_buf EmptyString elem =? EmptyString); [discriminate|].
  apply Clean_not_a_slash.
Qed.

End PathFacts.

(** ** Configuration: derived accessors and validation *)
Section ConfigFacts.
Import config config_env.
Context `{Deps}.

Lemma ArchiveExtensions_lookup (f ext : string) :
  ArchiveExtensions !! f = Some ext ->
  In (f, ext) [("tar", "tar"); ("lz4", "tar.lz4"); ("bzip2", "tar.bz2");
               ("gzip", "tar.gz"); ("sz", "tar.sz"); ("xz", "tar.xz")].
Proof.
  unfold ArchiveExtensions. rewrite !lookup_insert, lookup_empty.
  repeat case_decide; intros E; try discriminate;
    injection E as <-; subst f; simpl; tauto.
Qed.

Lemma ArchiveExtensions_tar (f ext : string) :
  ArchiveExtensions !! f = Some ext ->
  ext <> EmptyString /\ gostrings.HasPrefix ext "tar" = true.
Proof.
  intros L. apply ArchiveExtensions_lookup in L. simpl in L.
  repeat (destruct L as [L|L]; [injection L as <- <-; split; [discriminate|reflexivity]|]).
  contradiction.
Qed.

Lemma accessors_agree (cfg : Config) :
  In (RemoteStorage (General cfg)) backendNames ->
  GetArchiveExtension cfg = map_index ArchiveExtensions (GetCompressionFormat cfg).
Proof.
  unfold backendNames, GetArchiveExtension, GetCompressionFormat. simpl.
  intros [E|[E|[E|[E|[E|[]]]]]]; rewrite <- E; reflexivity.
Qed.

Lemma checkCompressionFormat_None (cfg : Config) :
  checkCompressionFormat cfg = None <->
  GetCompressionFormat cfg = "none" \/ is_Some (ArchiveExtensions !! GetCompressionFormat cfg).
Proof.
  unfold checkCompressionFormat, map_has.
  destruct (String.eqb_spec (GetCompressionFormat cfg) "none") as [E|E]; simpl.
  - tauto.
  - destruct (ArchiveExtensions !! GetCompressionFormat cfg) as [ext|] eqn:L; simpl.
    + split; [intros _; right; eauto | reflexivity].
    + split; [discriminate | intros [?|[? ?]]; [contradiction | discriminate]].
Qed.

Lemma andThen_None (c k : option error) :
  andThen c k = None <-> c = None /\ k = None.
Proof.
  destruct c; simpl.
  - split; [discriminate | intros [? _]; discriminate].
  - split; [intros ->; split; reflexivity | intros [_ ?]; assumption].
Qed.

Lemma storageClassLoop_true (sc : string) (values : list string) :
  storageClassLoop sc values = true <->
  exists v, In v values /\ gostrings.ToUpper unicode_upper sc = v.
Proof.
  induction values as [|v values IH]; simpl.
  - split; [discriminate | intros [? [F _]]; destruct F].
  - destruct (String.eqb_spec (gostrings.ToUpper unicode_upper sc) v) as [E|E].
    + split; [intros _; exists v; tauto | reflexivity].
    + rewrite IH. split.
      * intros [w [? ?]]. exists w. tauto.
      * intros [w [[->|?] ?]]; [contradiction | exists w; tauto].
Qed.

Lemma checkStorageClass_None (cfg : Config) :
  checkStorageClass cfg = None <->
  storageClassLoop (s3_StorageClass (S3 cfg)) StorageClass_Values = true.
Proof.
  unfold checkStorageClass.
  destruct (storageClassLoop _ _); simpl; split; congruence.
Qed.

(** C5: when the effective compression format is neither ["none"] nor a
    key of [ArchiveExtensions], [ValidateConfig] returns the error whose
    text is the format between quotes followed by
    [is unsupported compression format]; when it is ["none"] or a key of the
    table, the compression check raises no error and [ValidateConfig] goes
    on with the remaining checks. *)
Theorem ValidateConfig_compression_format (cfg : Config) :
  let f := GetCompressionFormat cfg in
  (f <> "none" -> ArchiveExtensions !! f = None ->
     ValidateConfig cfg = Some ("'" +:+ f +:+ "' is unsupported compression format"))
  /\ (f = "none" \/ is_Some (ArchiveExtensions !! f) ->
     checkCompressionFormat cfg = None /\ ValidateConfig cfg = validateRest cfg).
Proof.
  simpl. split.
  - intros Hn Hk. unfold ValidateConfig, checkCompressionFormat, map_has.
    rewrite Hk. apply String.eqb_neq in Hn. rewrite Hn. reflexivity.
  - intros Hok. apply checkCompressionFormat_None in Hok.
    unfold ValidateConfig. rewrite Hok. auto.
Qed.

(** C9: a configuration that [ValidateConfig] accepts has an effective
    compression format that is ["none"] or a key of [ArchiveExtensions];
    when moreover the format is not ["none"] and the selector is one of the
    five backends, the archive extension is a non-empty string that starts
    with ["tar"]. *)
Theorem validated_format_and_extension (cfg : Config) :
  ValidateConfig cfg = None ->
  let f := GetCompressionFormat cfg in
  (f = "none" \/ is_Some (ArchiveExtensions !! f))
  /\ (f <> "none" -> In (RemoteStorage (General cfg)) backendNames ->
      GetArchiveExtension cfg <> EmptyString
      /\ gostrings.HasPrefix (GetArchiveExtension cfg) "tar" = true).
Proof.
  intros V. cbv zeta. unfold ValidateConfig in V. apply andThen_None in V as [V _].
  apply checkCompressionFormat_None in V. split; [exact V|].
  intros Hn Hsel. destruct V as [V|[ext L]]; [contradiction|].
  rewrite (accessors_agree cfg Hsel). unfold map_index. rewrite L. simpl.
  eapply ArchiveExtensions_tar; eauto.
Qed.

(** C7, as amended: when the selector is none of [s3], [gcs], [cos], [ftp],
    [azblob], the archive extension is the empty string, and the effective
    compression format is ["unknown"], except for the selector ["none"],
    whose format is ["none"]. *)
Theorem accessors_unrecognized_selector (cfg : Config) :
  ~ In (RemoteStorage (General cfg)) backendNames ->
  GetArchiveExtension cfg = EmptyString
  /\ GetCompressionFormat cfg =
       (if RemoteStorage (General cfg) =? "none" then "none" else "unknown").
Proof.
  intros Hsel. unfold GetArchiveExtension, GetCompressionFormat.
  unfold backendNames in Hsel. simpl in Hsel.
  destruct (String.eqb_spec (RemoteStorage (General cfg)) "s3"); [intuition congruence|].
  destruct (String.eqb_spec (RemoteStorage (General cfg)) "gcs"); [intuition congruence|].
  destruct (String.eqb_spec (RemoteStorage (General cfg)) "cos"); [intuition congruence|].
  destruct (String.eqb_spec (RemoteStorage (General cfg)) "ftp"); [intuition congruence|].
  destruct (String.eqb_spec (RemoteStorage (General cfg)) "azblob"); [intuition congruence|].
  split; reflexivity.
Qed.

Lemma ValidateConfig_None_storage_class (cfg : Config) :
  ValidateConfig cfg = None -> checkStorageClass cfg = None.
Proof.
  unfold ValidateConfig, validateRest. intros V.
  do 4 (apply andThen_None in V as [_ V]).
  apply andThen_None in V as [V _]. exact V.
Qed.

(** C6: provided the enumerated storage classes are written in upper-case
    ASCII (as the SDK's are), the storage-class check of [ValidateConfig]
    passes exactly when the configured value has the upper-case form of
    one of them; for an ASCII value this is a byte-wise match ignoring the
    case of letters.  [ValidateConfig] succeeds only on such a value and
    returns an error on any other.  When the checks before it pass,
    [ValidateConfig] goes on to the last check on a matching value and
    returns the error [is bad S3_STORAGE_CLASS] on any other; when the
    other five checks pass, [ValidateConfig] returns no error exactly when
    the value matches. *)
Theorem ValidateConfig_storage_class (cfg : Config) :
  Forall (fun v => gostrings.isASCII v = true /\ gostrings.hasLower v = false)
         StorageClass_Values ->
  let sc := s3_StorageClass (S3 cfg) in
  let earlier_pass :=
    checkCompressionFormat cfg = None
    /\ checkDuration (ch_Timeout (ClickHouse cfg)) = None
    /\ checkDuration (cos_Timeout (COS cfg)) = None
    /\ checkDuration (ftp_Timeout (FTP cfg)) = None in
  let folds := exists v, In v StorageClass_Values /\ gostrings.equalFoldASCII sc v = true in
  (checkStorageClass cfg = None <-> storageClassMatches sc)
  /\ (gostrings.isASCII sc = true -> (checkStorageClass cfg = None <-> folds))
  /\ (ValidateConfig cfg = None -> storageClassMatches sc)
  /\ (~ storageClassMatches sc -> exists e, ValidateConfig cfg = Some e)
  /\ (earlier_pass -> storageClassMatches sc -> ValidateConfig cfg = checkTLS cfg)
  /\ (earlier_pass -> ~ storageClassMatches sc ->
      ValidateConfig cfg
      = Some ("'" +:+ sc +:+ "' is bad S3_STORAGE_CLASS, select one of: "
                  +:+ gostrings.Join StorageClass_Values ", "))
  /\ (earlier_pass -> checkTLS cfg = None ->
      (ValidateConfig cfg = None <-> storageClassMatches sc))
  /\ (earlier_pass -> checkTLS cfg = None -> gostrings.isASCII sc = true ->
      (ValidateConfig cfg = None <-> folds)).
Proof.
  intros Hup. cbv zeta. rewrite List.Forall_forall in Hup.
  assert (M : checkStorageClass cfg = None <-> storageClassMatches (s3_StorageClass (S3 cfg))).
  { rewrite checkStorageClass_None, storageClassLoop_true. unfold storageClassMatches.
    split; intros [v [Hin E]]; exists v; (split; [exact Hin|]);
      destruct (Hup v Hin) as [Ha Hl];
      rewrite (ToUpper_fixed unicode_upper v Ha Hl) in *; exact E. }
  assert (F : gostrings.isASCII (s3_StorageClass (S3 cfg)) = true ->
              (checkStorageClass cfg = None <->
               exists v, In v StorageClass_Values
                 /\ gostrings.equalFoldASCII (s3_StorageClass (S3 cfg)) v = true)).
  { intros Hsc. rewrite checkStorageClass_None, storageClassLoop_true.
    rewrite (ToUpper_ascii unicode_upper _ Hsc).
    split; intros [v [Hin E]]; exists v; (split; [exact Hin|]);
      destruct (Hup v Hin) as [_ Hl];
      apply (map_upper_fold _ v Hl); exact E. }
  assert (Step : checkCompressionFormat cfg = None
                 /\ checkDuration (ch_Timeout (ClickHouse cfg)) = None
                 /\ checkDuration (cos_Timeout (COS cfg)) = None
                 /\ checkDuration (ftp_Timeout (FTP cfg)) = None ->
                 ValidateConfig cfg = andThen (checkStorageClass cfg) (checkTLS cfg)).
  { intros (C & D1 & D2 & D3). unfold ValidateConfig, validateRest.
    rewrite C, D1, D2, D3. simpl.
    destruct (checkStorageClass cfg); simpl; [reflexivity|].
    destruct (checkTLS cfg); reflexivity. }
  assert (Pass : checkCompressionFormat cfg = None
                 /\ checkDuration (ch_Timeout (ClickHouse cfg)) = None
                 /\ checkDuration (cos_Timeout (COS cfg)) = None
                 /\ checkDuration (ftp_Timeout (FTP cfg)) = None ->
                 checkTLS cfg = None ->
                 (ValidateConfig cfg = None <-> checkStorageClass cfg = None)).
  { intros E T. rewrite (Step E), T.
    destruct (checkStorageClass cfg); simpl; split; congruence. }
  split; [exact M|]. split; [exact F|]. split; [|split; [|split; [|split; [|split]]]].
  - intros V. apply M. now apply ValidateConfig_None_storage_class.
  - intros Hno. destruct (ValidateConfig cfg) as [e|] eqn:V; [eauto|].
    exfalso. apply Hno, M. now apply ValidateConfig_None_storage_class.
  - intros E Hm. rewrite (Step E), (proj2 M Hm). reflexivity.
  - intros E Hno. rewrite (Step E). unfold checkStorageClass.
    destruct (storageClassLoop _ _) eqn:L; [|reflexivity].
    exfalso. apply Hno, M. now apply checkStorageClass_None.
  - intros E T. rewrite (Pass E T). exact M.
  - intros E T Hsc. rewrite (Pass E T). exact (F Hsc).
Qed.

(** C4, as amended: when every stage before validation succeeds (a
    missing file counts as success), [LoadConfig] returns the overlaid
    configuration together with the result of [ValidateConfig], be it an
    error or not; when one of them fails, it returns an error and no
    configuration. *)
Theorem LoadConfig_stages (location : string) :
  (forall cfg, overlaid DefaultConfig location cfg ->
     LoadConfig location = (Some cfg, ValidateConfig cfg))
  /\ ((forall cfg, ~ overlaid DefaultConfig location cfg) ->
     exists e, LoadConfig location = (None, Some e)).
Proof.
  unfold LoadConfig, overlaid. split.
  - intros cfg (configYaml & err & cfg1 & R & Hne & Y & E).
    rewrite R. assert (openFailed err = false) as ->.
    { destruct err as [e|]; simpl; [now rewrite Hne | reflexivity]. }
    rewrite Y, E. reflexivity.
  - intros Hno. destruct (ReadFile location) as [configYaml err] eqn:R.
    destruct (openFailed err) eqn:O; [eauto|].
    destruct (yaml_Unmarshal configYaml DefaultConfig) as [cfg1 [e|]] eqn:Y; [eauto|].
    destruct (envconfig_Process cfg1) as [cfg [e|]] eqn:E; [eauto|].
    exfalso. apply (Hno cfg). exists configYaml, err, cfg1.
    repeat split; try assumption.
    destruct err as [e|]; [|exact I]. simpl in O.
    now destruct (IsNotExist e).
Qed.

End ConfigFacts.

(** ** The COS adapter *)
Section StorageFacts.
Import new_storage.
Context `{Client} `{TimeParser}.

Lemma parseTimeLoop_first (text : string) (t : Time) (layout : string)
    (before after : list string) (t0 : Time) (e0 : option string) :
  (forall l, In l before -> exists e, time_Parse l text = Err e) ->
  time_Parse layout text = Ok t ->
  parseTimeLoop (before ++ layout :: after) text t0 e0 = (t, None).
Proof.
  intros Hb Hl. revert t0 e0.
  induction before as [|l before IH]; intros t0 e0; simpl.
  - unfold parse_pair. rewrite Hl. reflexivity.
  - destruct (Hb l (or_introl eq_refl)) as [e He].
    unfold parse_pair at 1. rewrite He. apply IH.
    intros l' Hin. apply Hb. now right.
Qed.

Lemma parseTimeLoop_none (text : string) (layouts : list string) :
  (forall l, In l layouts -> exists e, time_Parse l text = Err e) ->
  forall e0, exists e, parseTimeLoop layouts text zeroTime (Some e0) = (zeroTime, Some e).
Proof.
  induction layouts as [|l layouts IH]; intros Hall e0; simpl.
  - eauto.
  - destruct (Hall l (or_introl eq_refl)) as [e He].
    unfold parse_pair. rewrite He. apply IH.
    intros l' Hin. apply Hall. now right.
Qed.

Lemma parseTimeLoop_absent (text : string) (layouts : list string)
    (t0 : Time) (e0 : option string) :
  layouts <> [] ->
  (forall l, In l layouts -> exists e, time_Parse l text = Err e) ->
  exists e, parseTimeLoop layouts text t0 e0 = (zeroTime, Some e).
Proof.
  destruct layouts as [|l layouts]; [congruence|]. intros _ Hall. simpl.
  destruct (Hall l (or_introl eq_refl)) as [e He].
  unfold parse_pair. rewrite He. apply parseTimeLoop_none.
  intros l' Hin. apply Hall. now right.
Qed.

Lemma visit_dirs_record (prefix : string) (dirs : list string) (seen : list cosFile) :
  visit_dirs record_visit prefix dirs seen = (seen ++ map (dir_entry prefix) dirs)%list.
Proof.
  revert seen. induction dirs as [|d dirs IH]; intros seen; simpl.
  - now rewrite app_nil_r.
  - rewrite IH. unfold dir_entry at 2. now rewrite <- app_assoc.
Qed.

Lemma visit_contents_record (prefix : string) (contents : list Object) (seen : list cosFile) :
  visit_contents record_visit prefix contents seen
  = (seen ++ map (file_entry prefix) contents)%list.
Proof.
  revert seen. induction contents as [|v contents IH]; intros seen; simpl.
  - now rewrite app_nil_r.
  - destruct (parseTime (LastModified v)) as [t e] eqn:P. simpl.
    rewrite IH. unfold file_entry at 2. rewrite P. simpl. now rewrite <- app_assoc.
Qed.

(** C8: [parseTime] returns the time of the first layout of [timeFormats]
    that parses the text, with no error; when no layout parses it, the time
    is the zero [time.Time].  The error of [parseTime] is dropped by its
    callers: whenever the provider answers, [StatFile] returns the file and
    [Walk] visits every entry and returns no error, with the zero time for
    a date that no layout parses. *)
Theorem parseTime_first_layout_or_absent :
  let unparsed := fun text =>
    forall l, In l timeFormats -> exists e, time_Parse l text = Err e in
  (forall text before layout after t,
     timeFormats = (before ++ layout :: after)%list ->
     (forall l, In l before -> exists e, time_Parse l text = Err e) ->
     time_Parse layout text = Ok t ->
     parseTime text = (t, None))
  /\ (forall text, unparsed text -> exists e, parseTime text = (zeroTime, Some e))
  /\ (forall c key resp,
     Object_Get (gopath.Join [config.cos_Path (Config c); key]) = Ok resp ->
     snd (StatFile c key)
     = Ok {| size := ContentLength resp;
             name := Request_URL_Path resp;
             lastModified := fst (parseTime (Header_Get (Header resp) "Date")) |}
     /\ (unparsed (Header_Get (Header resp) "Date") ->
         snd (StatFile c key)
         = Ok {| size := ContentLength resp;
                 name := Request_URL_Path resp;
                 lastModified := zeroTime |}))
  /\ (forall c cosPath recursive res,
     let prefix := gopath.Join [config.cos_Path (Config c); cosPath] in
     Bucket_Get {| Delimiter := if negb recursive then "/" else EmptyString;
                   Prefix := prefix |} = Ok res ->
     (forall S (process : cosFile -> S -> S * option error) (s : S),
        snd (snd (Walk c cosPath recursive process s)) = None)
     /\ snd (Walk c cosPath recursive record_visit [])
        = ((map (dir_entry prefix) (CommonPrefixes res)
             ++ map (file_entry prefix) (Contents res))%list, None)
     /\ (forall v, unparsed (LastModified v) ->
         file_entry prefix v
         = {| name := gostrings.TrimPrefix (Key v) prefix;
              lastModified := zeroTime;
              size := Size v |})).
Proof.
  cbv zeta.
  assert (Absent : forall text,
            (forall l, In l timeFormats -> exists e, time_Parse l text = Err e) ->
            exists e, parseTime text = (zeroTime, Some e)).
  { intros text Hall. unfold parseTime.
    apply parseTimeLoop_absent; [discriminate | exact Hall]. }
  split; [|split; [exact Absent|split]].
  - intros text before layout after t E Hb Hl. unfold parseTime. rewrite E.
    now apply parseTimeLoop_first.
  - intros c key resp G. unfold StatFile, call, bind, ret. rewrite G. split.
    + destruct (parseTime _) as [t e]. reflexivity.
    + intros Hall. destruct (Absent _ Hall) as [e ->]. reflexivity.
  - intros c cosPath recursive res G. split; [|split].
    + intros S process s. unfold Walk, call, bind, ret. rewrite G. reflexivity.
    + unfold Walk, call, bind, ret. rewrite G. cbn [snd].
      now rewrite visit_dirs_record, visit_contents_record.
    + intros v Hall. unfold file_entry. destruct (Absent _ Hall) as [e ->]. reflexivity.
Qed.

(** C2, as amended: for a key the provider answers GET Object for with the
    error code [NoSuchKey], [StatFile] returns the sentinel [ErrNotFound],
    which no error of the provider is equal to; [DeleteFile] returns the
    provider's answer to the delete request as it is, no error when the
    provider reports none, and never the sentinel. *)
Theorem not_found_StatFile_DeleteFile (c : COS) (key : string) :
  let p := gopath.Join [config.cos_Path (Config c); key] in
  (forall message,
     Object_Get p = Err (ErrorResponse "NoSuchKey" message) ->
     snd (StatFile c key) = Err ErrNotFound)
  /\ (forall e, SdkError e <> ErrNotFound)
  /\ snd (DeleteFile c key) = option_map SdkError (Object_Delete p)
  /\ (Object_Delete p = None -> snd (DeleteFile c key) = None)
  /\ snd (DeleteFile c key) <> Some ErrNotFound.
Proof.
  cbv zeta. split; [|split; [|split; [|split]]].
  - intros message G. unfold StatFile, call, bind, ret. rewrite G. reflexivity.
  - discriminate.
  - reflexivity.
  - intros D. unfold DeleteFile, call, bind, ret. rewrite D. reflexivity.
  - unfold DeleteFile, call, bind, ret.
    destruct (Object_Delete _); simpl; discriminate.
Qed.

End StorageFacts.


(** C1: over the namespace of the two keys [a/b/file1] and [a/c/file2],
    [Walk] with the path [a/] lists under the prefix [a], the trailing
    slash being removed by [path.Join].  Not recursive, the provider rolls
    both keys up into the one common prefix [a/] and the visitor is called
    once, on the name [/]; recursive, it is called on the two files under
    the names [/b/file1] and [/c/file2]. *)
Theorem Walk_two_keys_under_a (now m1 b1 m2 b2 : string) (tp : new_storage.TimeParser) :
  let provider :=
    storage_env.memClient now
      [ {| storage_env.skey := "a/b/file1"; storage_env.smodified := m1;
           storage_env.sbody := b1 |};
        {| storage_env.skey := "a/c/file2"; storage_env.smodified := m2;
           storage_env.sbody := b2 |} ] in
  let walk := fun recursive =>
    @new_storage.Walk provider tp _ storage_env.cos0 "a/" recursive
      new_storage.record_visit [] in
  fst (walk false)
    = [new_storage.BucketGet {| new_storage.Prefix := "a"; new_storage.Delimiter := "/" |}]
  /\ @new_storage.Bucket_Get provider
       {| new_storage.Prefix := "a"; new_storage.Delimiter := "/" |}
     = Ok {| new_storage.CommonPrefixes := ["a/"]; new_storage.Contents := [] |}
  /\ snd (walk false)
     = ([ {| new_storage.size := 0; new_storage.lastModified := new_storage.zeroTime;
             new_storage.name := "/" |} ], None)
  /\ new_storage.CommonPrefixes (storage_env.listing
       [ {| storage_env.skey := "a/b/file1"; storage_env.smodified := m1;
            storage_env.sbody := b1 |};
         {| storage_env.skey := "a/c/file2"; storage_env.smodified := m2;
            storage_env.sbody := b2 |} ] "a" EmptyString) = []
  /\ map new_storage.name (fst (snd (walk true))) = ["/b/file1"; "/c/file2"]
  /\ snd (snd (walk true)) = None.
Proof.
  cbv zeta. repeat split.
  unfold new_storage.Walk, new_storage.call, new_storage.bind, new_storage.ret.
  simpl.
  destruct (new_storage.parseTime m1) as [t1 e1].
  destruct (new_storage.parseTime m2) as [t2 e2]. reflexivity.
Qed.

(** Asked with the prefix [a/] itself, the provider lists the two keys
    under the names relative to it. *)
Example listing_under_a_slash :
  storage_env.walk_names storage_env.two_keys "a/" "/" = ["b/"; "c/"]
  /\ storage_env.walk_names storage_env.two_keys "a/" EmptyString
     = ["b/file1"; "c/file2"].
Proof. split; vm_compute; reflexivity. Qed.

Example Join_drops_trailing_slash :
  gopath.Join [EmptyString; "a/"] = "a"
  /\ gopath.Join ["backup"; "a/"] = "backup/a"
  /\ gopath.Join ["backup/"; "shard0/../a//b/."] = "backup/a/b".
Proof. repeat split. Qed.

(** Under a prefix other than [a/], the two keys are never listed under
    the names [b/] and [c/], nor under [b/file1] and [c/file2]. *)
Lemma walk_names_two_keys (prefix : string) :
  prefix <> "a/" ->
  storage_env.walk_names storage_env.two_keys prefix "/" <> ["b/"; "c/"]
  /\ storage_env.walk_names storage_env.two_keys prefix EmptyString
     <> ["b/file1"; "c/file2"].
Proof.
  intros Hp.
  destruct (gostrings.HasPrefix "a/b/file1" prefix) eqn:H1.
  { apply HasPrefix_prefixes in H1. simpl in H1.
    repeat (destruct H1 as [H1|H1];
            [subst prefix; try congruence; split; vm_compute; discriminate|]).
    contradiction. }
  destruct (gostrings.HasPrefix "a/c/file2" prefix) eqn:H2.
  { apply HasPrefix_prefixes in H2. simpl in H2.
    repeat (destruct H2 as [H2|H2];
            [subst prefix; try congruence; split; vm_compute; discriminate|]).
    contradiction. }
  unfold storage_env.walk_names, storage_env.two_keys, storage_env.listing.
  cbn [storage_env.skey]. rewrite H1, H2. split; discriminate.
Qed.

Lemma record_visit_names (tp : new_storage.TimeParser) (prefix : string)
    (res : new_storage.BucketGetResult) :
  map new_storage.name
    (map (new_storage.dir_entry prefix) (new_storage.CommonPrefixes res)
     ++ map (@new_storage.file_entry tp prefix) (new_storage.Contents res))%list
  = (map (fun dir => gostrings.TrimPrefix dir prefix) (new_storage.CommonPrefixes res)
     ++ map (fun v => gostrings.TrimPrefix (new_storage.Key v) prefix)
         (new_storage.Contents res))%list.
Proof. rewrite map_app, !map_map. reflexivity. Qed.

(** Whatever the configured path and the path given to [Walk], the names
    the visitor receives over the two keys are not [b/], [c/] (not
    recursive) nor [b/file1], [c/file2] (recursive): the listing prefix
    comes out of [path.Join], which never ends it with the slash of [a/]. *)
Lemma Walk_two_keys_never_relative (now : string) (tp : new_storage.TimeParser)
    (c : new_storage.COS) (cosPath : string) :
  let names := fun recursive =>
    map new_storage.name
      (fst (snd (@new_storage.Walk (storage_env.memClient now storage_env.two_keys) tp _
                   c cosPath recursive new_storage.record_visit []))) in
  names false <> ["b/"; "c/"] /\ names true <> ["b/file1"; "c/file2"].
Proof.
  cbv zeta.
  pose proof (walk_names_two_keys _
    (Join_not_a_slash [config.cos_Path (new_storage.Config c); cosPath])) as [D R].
  unfold new_storage.Walk, new_storage.call, new_storage.bind, new_storage.ret.
  cbn [new_storage.Bucket_Get storage_env.memClient new_storage.Prefix
       new_storage.Delimiter negb fst snd].
  rewrite !visit_dirs_record, !visit_contents_record. cbn [app].
  rewrite !record_visit_names. split; assumption.
Qed.

(** ** Table metadata *)
Section MetadataFacts.
Import metadata.
Context `{Deps}.

(** C10: [Load] returns an error exactly when reading the file fails or,
    the file read, decoding it fails, and the error is that of the failing
    step; the size is then [0]; without an error the size is the number of
    bytes read. *)
Theorem Load_size_and_error (tm : TableMetadata) (location : string) :
  let data := fst (ReadFile location) in
  let read_err := snd (ReadFile location) in
  let decode_err := snd (json_Unmarshal data tm) in
  let size := fst (snd (Load tm location)) in
  let err := snd (snd (Load tm location)) in
  (Z.of_nat (String.length data) < 2 ^ 63)%Z ->
  (err <> None <-> read_err <> None \/ (read_err = None /\ decode_err <> None))
  /\ err = match read_err with Some e => Some e | None => decode_err end
  /\ (err <> None -> size = 0%Z)
  /\ (err = None -> size = Z.of_nat (String.length data)).
Proof.
  cbv zeta. unfold Load.
  destruct (ReadFile location) as [data [e|]]; simpl.
  - intros _. split; [|split; [|split]]; try congruence.
    split; [intros _; left; discriminate | discriminate].
  - destruct (json_Unmarshal data tm) as [tm' [e|]]; simpl; intros Hlen.
    + split; [|split; [|split]]; try congruence.
      split; [intros _; right; split; [reflexivity | discriminate] | discriminate].
    + split; [|split; [|split]].
      * split; [congruence | intros [?|[_ ?]]; congruence].
      * reflexivity.
      * congruence.
      * intros _. unfold uint64. apply Z.mod_small. lia.
Qed.

End MetadataFacts.

(** * The theorems at concrete inputs *)

(** An S3 compression format outside the table is refused, by name. *)
Lemma ValidateConfig_compression_format_witness :
  let cfg := config_env.set_S3_CompressionFormat "zip" config.DefaultConfig in
  config.GetCompressionFormat cfg <> "none"
  /\ config.ArchiveExtensions !! config.GetCompressionFormat cfg = None
  /\ @config.ValidateConfig (config_env.refDeps []) cfg
     = Some "'zip' is unsupported compression format".
Proof.
  cbv zeta.
  assert (H1 : config.GetCompressionFormat
                 (config_env.set_S3_CompressionFormat "zip" config.DefaultConfig) <> "none")
    by discriminate.
  assert (H2 : config.ArchiveExtensions
                 !! config.GetCompressionFormat
                      (config_env.set_S3_CompressionFormat "zip" config.DefaultConfig) = None)
    by (vm_compute; reflexivity).
  split; [exact H1|]. split; [exact H2|].
  exact (proj1 (@ValidateConfig_compression_format (config_env.refDeps [])
                  (config_env.set_S3_CompressionFormat "zip" config.DefaultConfig)) H1 H2).
Defined.

(** The default configuration is accepted and its extension is [tar]. *)
Lemma validated_format_and_extension_witness :
  @config.ValidateConfig (config_env.refDeps []) config.DefaultConfig = None
  /\ config.GetArchiveExtension config.DefaultConfig <> EmptyString
  /\ gostrings.HasPrefix (config.GetArchiveExtension config.DefaultConfig) "tar" = true.
Proof.
  assert (V : @config.ValidateConfig (config_env.refDeps []) config.DefaultConfig = None)
    by (vm_compute; reflexivity).
  split; [exact V|].
  apply (proj2 (@validated_format_and_extension (config_env.refDeps [])
                  config.DefaultConfig V)).
  - discriminate.
  - simpl. tauto.
Defined.

(** With the other checks passing, the value [standard] is accepted and
    the value [bogus] is refused with the storage-class error. *)
Lemma ValidateConfig_storage_class_witness :
  Forall (fun v => gostrings.isASCII v = true /\ gostrings.hasLower v = false)
         config_env.aws_StorageClass_Values
  /\ @config.storageClassMatches (config_env.refDeps []) "standard"
  /\ @config.ValidateConfig (config_env.refDeps [])
       (config_env.set_S3_StorageClass "standard" config.DefaultConfig) = None
  /\ @config.ValidateConfig (config_env.refDeps [])
       (config_env.set_S3_StorageClass "bogus" config.DefaultConfig)
     = Some ("'bogus' is bad S3_STORAGE_CLASS, select one of: "
             +:+ gostrings.Join config_env.aws_StorageClass_Values ", ").
Proof.
  assert (U : Forall (fun v => gostrings.isASCII v = true /\ gostrings.hasLower v = false)
                     config_env.aws_StorageClass_Values)
    by (repeat constructor).
  pose proof (@ValidateConfig_storage_class (config_env.refDeps [])
                (config_env.set_S3_StorageClass "standard" config.DefaultConfig) U)
    as (Ms & _ & _ & _ & _ & _ & Accept & _).
  pose proof (@ValidateConfig_storage_class (config_env.refDeps [])
                (config_env.set_S3_StorageClass "bogus" config.DefaultConfig) U)
    as (Mb & _ & _ & _ & _ & Refuse & _).
  assert (S : @config.storageClassMatches (config_env.refDeps []) "standard")
    by (apply (proj1 Ms); vm_compute; reflexivity).
  split; [exact U|]. split; [exact S|]. split.
  - apply Accept; [repeat split; vm_compute; reflexivity | reflexivity | exact S].
  - apply Refuse; [repeat split; vm_compute; reflexivity|].
    intros B. apply (proj2 Mb) in B. vm_compute in B. discriminate B.
Defined.

Example storage_class_standard_accepted :
  @config.ValidateConfig (config_env.refDeps [])
    (config_env.set_S3_StorageClass "standard" config.DefaultConfig) = None.
Proof. vm_compute. reflexivity. Qed.

Example storage_class_bogus_rejected :
  @config.ValidateConfig (config_env.refDeps [])
    (config_env.set_S3_StorageClass "bogus" config.DefaultConfig)
  = Some ("'bogus' is bad S3_STORAGE_CLASS, select one of: STANDARD, "
          +:+ "REDUCED_REDUNDANCY, STANDARD_IA, ONEZONE_IA, INTELLIGENT_TIERING, "
          +:+ "GLACIER, DEEP_ARCHIVE, OUTPOSTS").
Proof. vm_compute. reflexivity. Qed.

(** With the selector [bogus], the archive extension is the empty string,
    not the text [unknown]. *)
Lemma GetArchiveExtension_not_unknown :
  let cfg := config_env.set_RemoteStorage "bogus" config.DefaultConfig in
  ~ In (config.RemoteStorage (config.General cfg)) ("none" :: config.backendNames)
  /\ config.GetCompressionFormat cfg = "unknown"
  /\ config.GetArchiveExtension cfg = EmptyString
  /\ config.GetArchiveExtension cfg <> "unknown".
Proof.
  cbv zeta. split; [|split; [reflexivity | split; [reflexivity | discriminate]]].
  simpl. intros [E|[E|[E|[E|[E|[E|[]]]]]]]; discriminate.
Qed.

Lemma accessors_unrecognized_selector_witness :
  let cfg := config_env.set_RemoteStorage "bogus" config.DefaultConfig in
  ~ In (config.RemoteStorage (config.General cfg)) config.backendNames
  /\ config.GetArchiveExtension cfg = EmptyString
  /\ config.GetCompressionFormat cfg = "unknown".
Proof.
  cbv zeta.
  assert (N : ~ In (config.RemoteStorage (config.General
                 (config_env.set_RemoteStorage "bogus" config.DefaultConfig)))
                config.backendNames).
  { simpl. intros [E|[E|[E|[E|[E|[]]]]]]; discriminate. }
  split; [exact N|].
  exact (accessors_unrecognized_selector
           (config_env.set_RemoteStorage "bogus" config.DefaultConfig) N).
Defined.

(** With [REMOTE_STORAGE=bogus] in the environment, validation fails and
    [LoadConfig] returns the error together with the configuration. *)
Lemma LoadConfig_error_with_config :
  @config.LoadConfig (config_env.refDeps [("REMOTE_STORAGE", "bogus")]) "config.yml"
  = (Some (config_env.set_RemoteStorage "bogus" config.DefaultConfig),
     Some "'unknown' is unsupported compression format").
Proof. vm_compute. reflexivity. Qed.

Lemma LoadConfig_stages_witness :
  let deps := config_env.refDeps [("REMOTE_STORAGE", "bogus")] in
  let cfg := config_env.set_RemoteStorage "bogus" config.DefaultConfig in
  @config.overlaid deps config.DefaultConfig "config.yml" cfg
  /\ @config.LoadConfig deps "config.yml" = (Some cfg, @config.ValidateConfig deps cfg).
Proof.
  cbv zeta.
  assert (O : @config.overlaid (config_env.refDeps [("REMOTE_STORAGE", "bogus")])
                config.DefaultConfig "config.yml"
                (config_env.set_RemoteStorage "bogus" config.DefaultConfig)).
  { eexists _, _, _. repeat split. }
  split; [exact O|].
  exact (proj1 (@LoadConfig_stages (config_env.refDeps [("REMOTE_STORAGE", "bogus")])
                  "config.yml") _ O).
Defined.

(** A listing date in RFC 3339 form is parsed by the fourth layout; a text
    no layout parses gives the zero time. *)
Lemma parseTime_first_layout_or_absent_witness :
  @new_storage.parseTime storage_env.refTimeParser "2021-03-04T05:06:07Z"
    = (63750431167%Z, None)
  /\ exists e, @new_storage.parseTime storage_env.refTimeParser "yesterday"
               = (new_storage.zeroTime, Some e).
Proof.
  pose proof (@parseTime_first_layout_or_absent
                (storage_env.memClient "Thu, 04 Mar 2021 05:06:07 GMT" storage_env.two_keys)
                storage_env.refTimeParser) as (First & Absent & _).
  split.
  - apply (First "2021-03-04T05:06:07Z"
             ["Mon, 02 Jan 2006 15:04:05 GMT"; "Monday, 02-Jan-06 15:04:05 MST";
              "Mon Jan _2 15:04:05 2006"]
             "2006-01-02T15:04:05Z07:00" [] 63750431167%Z).
    + reflexivity.
    + intros l [<-|[<-|[<-|[]]]]; eexists; vm_compute; reflexivity.
    + reflexivity.
  - apply (Absent "yesterday").
    intros l [<-|[<-|[<-|[<-|[]]]]]; eexists; vm_compute; reflexivity.
Defined.

(** A key that is not in the bucket: [StatFile] returns the sentinel. *)
Lemma not_found_StatFile_DeleteFile_witness :
  let provider :=
    storage_env.memClient "Thu, 04 Mar 2021 05:06:07 GMT" storage_env.two_keys in
  @new_storage.Object_Get provider "a/b/file3"
    = Err (new_storage.ErrorResponse "NoSuchKey" "The specified key does not exist.")
  /\ snd (@new_storage.StatFile provider storage_env.refTimeParser
            storage_env.cos0 "a/b/file3")
     = Err new_storage.ErrNotFound.
Proof.
  cbv zeta. split; [reflexivity|].
  exact (proj1 (@not_found_StatFile_DeleteFile
                  (storage_env.memClient "Thu, 04 Mar 2021 05:06:07 GMT" storage_env.two_keys)
                  storage_env.refTimeParser storage_env.cos0 "a/b/file3")
               "The specified key does not exist." eq_refl).
Defined.

(** The same key: [DeleteFile] reports success and [GetFileReader] the
    provider's error; neither returns the sentinel. *)
Lemma missing_key_without_sentinel :
  let provider :=
    storage_env.memClient "Thu, 04 Mar 2021 05:06:07 GMT" storage_env.two_keys in
  storage_env.find_object storage_env.two_keys "a/b/file3" = None
  /\ @new_storage.DeleteFile provider storage_env.cos0 "a/b/file3"
     = ([new_storage.ObjectDelete "a/b/file3"], None)
  /\ @new_storage.GetFileReader provider storage_env.cos0 "a/b/file3"
     = ([new_storage.ObjectGet "a/b/file3"],
        Err (new_storage.SdkError
               (new_storage.ErrorResponse "NoSuchKey" "The specified key does not exist.")))
  /\ new_storage.SdkError
       (new_storage.ErrorResponse "NoSuchKey" "The specified key does not exist.")
     <> new_storage.ErrNotFound.
Proof. cbv zeta. repeat split. discriminate. Qed.



(** The one file of the reference file system holds two bytes. *)
Lemma Load_size_and_error_witness :
  (Z.of_nat (String.length (fst (@metadata.ReadFile metadata.refDeps
                                   "metadata/default/t.json"))) < 2 ^ 63)%Z
  /\ snd (@metadata.Load metadata.refDeps [] "metadata/default/t.json") = (2%Z, None).
Proof.
  assert (L : (Z.of_nat (String.length (fst (@metadata.ReadFile metadata.refDeps
                 "metadata/default/t.json"))) < 2 ^ 63)%Z) by (vm_compute; reflexivity).
  split; [exact L|].
  pose proof (@Load_size_and_error metadata.refDeps [] "metadata/default/t.json" L)
    as (_ & _ & _ & Size).
  assert (E : snd (snd (@metadata.Load metadata.refDeps [] "metadata/default/t.json")) = None)
    by reflexivity.
  specialize (Size E).
  destruct (@metadata.Load metadata.refDeps [] "metadata/default/t.json") as [tm [size err]].
  simpl in *. subst. reflexivity.
Defined.

(** * Further properties *)

(** ** Configuration *)
Section ConfigMore.
Import config config_env.
Context `{Deps}.

Lemma GetCompressionFormat_unrecognized (cfg : Config) :
  ~ In (RemoteStorage (General cfg)) ("none" :: backendNames) ->
  GetCompressionFormat cfg = "unknown".
Proof.
  unfold GetCompressionFormat, backendNames. simpl. intros Hsel.
  repeat match goal with
         | |- context [?a =? ?b] =>
             destruct (String.eqb_spec a b); [exfalso; apply Hsel; intuition congruence|]
         end.
  reflexivity.
Qed.

(** X1: the archive extension is the entry of [ArchiveExtensions] for the
    effective compression format, whatever the selector: the empty string
    when the format is no key of the table. *)
Theorem GetArchiveExtension_of_format (cfg : Config) :
  GetArchiveExtension cfg = map_index ArchiveExtensions (GetCompressionFormat cfg).
Proof.
  unfold GetArchiveExtension, GetCompressionFormat.
  repeat match goal with
         | |- context [?a =? ?b] => destruct (String.eqb_spec a b); [reflexivity|]
         end.
  reflexivity.
Qed.

(** X2: [ValidateConfig] returns no error exactly when the six checks hold:
    the effective format is ["none"] or a key of the table, the three
    timeouts parse, the upper-case form of the S3 storage class is one of
    the enumerated values, and the key pair loads if the API is secure. *)
Theorem ValidateConfig_None_iff (cfg : Config) :
  ValidateConfig cfg = None <->
  (GetCompressionFormat cfg = "none"
   \/ is_Some (ArchiveExtensions !! GetCompressionFormat cfg))
  /\ (exists d, ParseDuration (ch_Timeout (ClickHouse cfg)) = Ok d)
  /\ (exists d, ParseDuration (cos_Timeout (COS cfg)) = Ok d)
  /\ (exists d, ParseDuration (ftp_Timeout (FTP cfg)) = Ok d)
  /\ (exists v, In v StorageClass_Values
        /\ gostrings.ToUpper unicode_upper (s3_StorageClass (S3 cfg)) = v)
  /\ (api_Secure (API cfg) = true ->
      exists u, LoadX509KeyPair (api_CertificateFile (API cfg))
                  (api_PrivateKeyFile (API cfg)) = Ok u).
Proof.
  assert (D : forall text, checkDuration text = None <-> exists d, ParseDuration text = Ok d).
  { intros text. unfold checkDuration. destruct (ParseDuration text) as [d|e].
    - split; [eauto | reflexivity].
    - split; [discriminate | intros [d ?]; discriminate]. }
  assert (T : checkTLS cfg = None <->
              (api_Secure (API cfg) = true ->
               exists u, LoadX509KeyPair (api_CertificateFile (API cfg))
                           (api_PrivateKeyFile (API cfg)) = Ok u)).
  { unfold checkTLS. destruct (api_Secure (API cfg)).
    - destruct (LoadX509KeyPair _ _) as [u|e].
      + split; [eauto | reflexivity].
      + split; [discriminate | intros K; destruct (K eq_refl); discriminate].
    - split; [discriminate | reflexivity]. }
  unfold ValidateConfig, validateRest.
  rewrite !andThen_None, checkCompressionFormat_None, !D, checkStorageClass_None,
    storageClassLoop_true, T.
  tauto.
Qed.

(** X3: a selector that is neither a backend nor ["none"] is always refused,
    with the format named [unknown], whatever the rest of the
    configuration. *)
Theorem ValidateConfig_unknown_selector (cfg : Config) :
  ~ In (RemoteStorage (General cfg)) ("none" :: backendNames) ->
  ValidateConfig cfg = Some "'unknown' is unsupported compression format".
Proof.
  intros Hsel. unfold ValidateConfig, checkCompressionFormat.
  rewrite (GetCompressionFormat_unrecognized cfg Hsel). reflexivity.
Qed.

(** X4: the compression format of the S3 section is read only when S3 is the
    selected backend: with another selector, changing it changes neither
    the accessors nor the result of [ValidateConfig]. *)
Theorem inactive_S3_format_inert (v : string) (cfg : Config) :
  RemoteStorage (General cfg) <> "s3" ->
  GetCompressionFormat (set_S3_CompressionFormat v cfg) = GetCompressionFormat cfg
  /\ GetArchiveExtension (set_S3_CompressionFormat v cfg) = GetArchiveExtension cfg
  /\ ValidateConfig (set_S3_CompressionFormat v cfg) = ValidateConfig cfg.
Proof.
  intros Hsel. apply String.eqb_neq in Hsel.
  assert (F : GetCompressionFormat (set_S3_CompressionFormat v cfg)
              = GetCompressionFormat cfg).
  { unfold GetCompressionFormat. simpl. now rewrite Hsel. }
  split; [exact F|]. split.
  - unfold GetArchiveExtension. simpl. now rewrite Hsel.
  - unfold ValidateConfig, checkCompressionFormat. rewrite F. reflexivity.
Qed.

(** X5: the default configuration passes [ValidateConfig] as soon as the
    durations [5m] and [2m] parse and [STANDARD] is a storage class. *)
Theorem DefaultConfig_valid :
  (exists d, ParseDuration "5m" = Ok d) ->
  (exists d, ParseDuration "2m" = Ok d) ->
  In "STANDARD" StorageClass_Values ->
  ValidateConfig DefaultConfig = None.
Proof.
  intros [d5 D5] [d2 D2] Hstd.
  assert (L : storageClassLoop (s3_StorageClass (S3 DefaultConfig)) StorageClass_Values = true).
  { apply storageClassLoop_true. exists "STANDARD". split; [exact Hstd | reflexivity]. }
  unfold ValidateConfig, validateRest, checkDuration, checkStorageClass, checkTLS.
  rewrite L. simpl. rewrite D5, D2. reflexivity.
Qed.

(** X6: the errors of [LoadConfig], stage by stage: a read error other than a
    missing file and a YAML error are returned under the prefixes
    [can't open config file: ] and [can't parse config file: ], the
    later stages not being run; an error of the environment overlay is
    returned as it is. *)
Theorem LoadConfig_stage_errors (location : string) :
  (forall configYaml e,
     ReadFile location = (configYaml, Some e) -> IsNotExist e = false ->
     LoadConfig location = (None, Some ("can't open config file: " +:+ fs_text e)))
  /\ (forall configYaml err cfg1 e,
     ReadFile location = (configYaml, err) -> openFailed err = false ->
     yaml_Unmarshal configYaml DefaultConfig = (cfg1, Some e) ->
     LoadConfig location = (None, Some ("can't parse config file: " +:+ e)))
  /\ (forall configYaml err cfg1 cfg2 e,
     ReadFile location = (configYaml, err) -> openFailed err = false ->
     yaml_Unmarshal configYaml DefaultConfig = (cfg1, None) ->
     envconfig_Process cfg1 = (cfg2, Some e) ->
     LoadConfig location = (None, Some e)).
Proof.
  unfold LoadConfig. split; [|split].
  - intros configYaml e R N. rewrite R. simpl. rewrite N. reflexivity.
  - intros configYaml err cfg1 e R O Y. rewrite R, O, Y. reflexivity.
  - intros configYaml err cfg1 cfg2 e R O Y E. rewrite R, O, Y, E. reflexivity.
Qed.

(** X7: when [LoadConfig] returns no error it returns a configuration, the one
    the overlays make of the defaults, and [ValidateConfig] accepts it;
    a nil configuration always comes with an error. *)
Theorem LoadConfig_nil_error (location : string) :
  (snd (LoadConfig location) = None ->
   exists cfg, fst (LoadConfig location) = Some cfg
     /\ overlaid DefaultConfig location cfg
     /\ ValidateConfig cfg = None)
  /\ (fst (LoadConfig location) = None -> snd (LoadConfig location) <> None).
Proof.
  unfold LoadConfig, overlaid.
  destruct (ReadFile location) as [configYaml err] eqn:R.
  destruct (openFailed err) eqn:O; [split; simpl; [discriminate | discriminate]|].
  destruct (yaml_Unmarshal configYaml DefaultConfig) as [cfg1 [e|]] eqn:Y;
    [split; simpl; discriminate|].
  destruct (envconfig_Process cfg1) as [cfg [e|]] eqn:E; [split; simpl; discriminate|].
  simpl. split; [|discriminate].
  intros V. exists cfg. split; [reflexivity|]. split; [|exact V].
  exists configYaml, err, cfg1. repeat split; try reflexivity; try assumption.
  destruct err as [e|]; [|exact I]. simpl in O. now destruct (IsNotExist e).
Qed.

(** X8: the keys of [ArchiveExtensions] are the six format names, and two
    formats never share an extension. *)
Theorem ArchiveExtensions_keys_injective (f1 f2 ext : string) :
  (is_Some (ArchiveExtensions !! f1)
   <-> In f1 ["tar"; "lz4"; "bzip2"; "gzip"; "sz"; "xz"])
  /\ (ArchiveExtensions !! f1 = Some ext -> ArchiveExtensions !! f2 = Some ext -> f1 = f2).
Proof.
  split.
  - split.
    + intros [e L]. apply ArchiveExtensions_lookup in L. simpl in L |- *.
      repeat (destruct L as [L|L]; [injection L as <- _; tauto|]). contradiction.
    + simpl. intros K.
      repeat (destruct K as [K|K]; [subst f1; vm_compute; eauto|]). contradiction.
  - intros L1 L2. apply ArchiveExtensions_lookup in L1, L2. simpl in L1, L2.
    repeat (destruct L1 as [L1|L1]; [injection L1 as <- <-|]); try contradiction;
      repeat (destruct L2 as [L2|L2]; [congruence|]); contradiction.
Qed.

End ConfigMore.

(** ** Strings and paths *)
Section PathMore.
Import gopath.

Lemma append_cons (c : ascii) (x y : string) :
  String c x +:+ y = String c (x +:+ y).
Proof. reflexivity. Qed.

Lemma append_assoc (x y z : string) : (x +:+ y) +:+ z = x +:+ (y +:+ z).
Proof.
  induction x as [|c x IH]; [reflexivity|].
  now rewrite !append_cons, IH.
Qed.

Lemma append_not_empty (x y : string) : y <> EmptyString -> x +:+ y <> EmptyString.
Proof. destruct x; [tauto | rewrite append_cons; discriminate]. Qed.

Lemma drop_append (p s : string) : gostrings.drop (String.length p) (p +:+ s) = s.
Proof. induction p as [|c p IH]; [reflexivity | rewrite append_cons; exact IH]. Qed.

Lemma HasPrefix_split (s p : string) :
  gostrings.HasPrefix s p = true -> exists r, s = p +:+ r.
Proof.
  revert s. induction p as [|a p IH]; intros s; simpl.
  - intros _. exists s. reflexivity.
  - destruct s as [|b s]; [discriminate|].
    intros E. apply andb_true_iff in E as [Eab Ep]. apply Ascii.eqb_eq in Eab.
    subst b. destruct (IH s Ep) as [r ->]. exists r. reflexivity.
Qed.

(** [strings.TrimPrefix] undoes the prefix: a string that starts with the
    prefix is the prefix followed by what [TrimPrefix] returns. *)
Lemma TrimPrefix_append (s p : string) :
  gostrings.HasPrefix s p = true -> p +:+ gostrings.TrimPrefix s p = s.
Proof.
  intros Hp. unfold gostrings.TrimPrefix. rewrite Hp.
  destruct (HasPrefix_split s p Hp) as [r ->]. now rewrite drop_append.
Qed.

Lemma split_not_nil (s : string) : split s <> [].
Proof.
  induction s as [|c s IH]; simpl; [discriminate|].
  destruct (Ascii.eqb c "/"); [discriminate|].
  destruct (split s); [congruence | discriminate].
Qed.

Lemma split_trailing_slash (x : string) :
  split (x +:+ "/") = (split x ++ [EmptyString])%list.
Proof.
  induction x as [|c x IH]; [reflexivity|].
  rewrite append_cons. simpl. rewrite IH.
  destruct (Ascii.eqb c "/"); [reflexivity|].
  pose proof (split_not_nil x) as N.
  destruct (split x) as [|e es]; [congruence | reflexivity].
Qed.

(** [path.Clean] drops a trailing slash. *)
Lemma Clean_trailing_slash (x : string) :
  x <> EmptyString -> Clean (x +:+ "/") = Clean x.
Proof.
  intros Hx. unfold Clean.
  assert (E1 : (x +:+ "/" =? EmptyString) = false)
    by (apply String.eqb_neq, append_not_empty; discriminate).
  assert (E2 : (x =? EmptyString) = false) by now apply String.eqb_neq.
  assert (R : is_rooted (x +:+ "/") = is_rooted x)
    by (destruct x; [congruence | reflexivity]).
  rewrite E1, E2, R, split_trailing_slash, fold_left_app. reflexivity.
Qed.

Lemma join_buf_two (p k : string) :
  k <> EmptyString ->
  join_buf EmptyString [p; k] = if p =? EmptyString then k else (p +:+ "/") +:+ k.
Proof.
  intros Hk. apply String.eqb_neq in Hk. simpl.
  destruct (p =? EmptyString) eqn:Ep; simpl.
  - rewrite Hk. reflexivity.
  - change (EmptyString +:+ p) with p. rewrite Ep. reflexivity.
Qed.

(** [path.Join] of the configured path and a key gives the same name
    with and without a slash after the key. *)
Lemma Join_trailing_slash (p k : string) :
  k <> EmptyString -> Join [p; k +:+ "/"] = Join [p; k].
Proof.
  intros Hk. unfold Join.
  rewrite (join_buf_two p k Hk).
  rewrite (join_buf_two p (k +:+ "/")) by (apply append_not_empty; discriminate).
  assert (N : forall y, y <> EmptyString -> (y =? EmptyString) = false)
    by (intros y; apply String.eqb_neq).
  destruct (p =? EmptyString).
  - rewrite (N k Hk), (N (k +:+ "/")) by (apply append_not_empty; discriminate).
    now apply Clean_trailing_slash.
  - rewrite <- append_assoc.
    rewrite (N ((p +:+ "/") +:+ k)) by now apply append_not_empty.
    rewrite (N (((p +:+ "/") +:+ k) +:+ "/")) by (apply append_not_empty; discriminate).
    apply Clean_trailing_slash. now apply append_not_empty.
Qed.

Lemma last_byte_append (x y : string) :
  y <> EmptyString -> gostrings.last_byte (x +:+ y) = gostrings.last_byte y.
Proof.
  intros Hy. induction x as [|c x IH]; [reflexivity|].
  rewrite append_cons. pose proof (append_not_empty x y Hy) as N.
  simpl. destruct (x +:+ y); [congruence | exact IH].
Qed.

Lemma last_byte_In (e : string) (c : ascii) :
  gostrings.last_byte e = Some c -> In c (list_ascii_of_string e).
Proof.
  induction e as [|a e IH]; [discriminate|]. simpl.
  destruct e as [|b e]; [intros [= ->]; now left | intros L; right; now apply IH].
Qed.

Lemma Join_elements_last (out : list string) :
  (forall x, In x out -> is_element x) ->
  gostrings.last_byte (gostrings.Join out "/") <> Some "/"%char.
Proof.
  induction out as [|e out IH]; [discriminate|]. intros Hall.
  destruct out as [|e' out].
  - simpl. intros L. apply last_byte_In in L.
    now destruct (Hall e (or_introl eq_refl)) as [_ Hns].
  - change (gostrings.Join (e :: e' :: out) "/")
      with (e +:+ "/" +:+ gostrings.Join (e' :: out) "/").
    assert (J : gostrings.Join (e' :: out) "/" <> EmptyString).
    { apply Join_elements_not_empty; [discriminate|].
      intros x Hin. apply Hall. now right. }
    rewrite last_byte_append by (apply append_not_empty; exact J).
    rewrite last_byte_append by exact J.
    apply IH. intros x Hin. apply Hall. now right.
Qed.

Lemma Clean_last (path : string) :
  Clean path = "/" \/ gostrings.last_byte (Clean path) <> Some "/"%char.
Proof.
  unfold Clean. destruct (path =? EmptyString); [right; discriminate|].
  assert (Hout : forall x,
            In x (rev (fold_left (clean_step (is_rooted path)) (split path) [])) ->
            is_element x).
  { intros x Hin. apply in_rev in Hin. revert x Hin.
    apply fold_clean_step_elements; [apply split_no_slash | intros x []]. }
  destruct (rev _) as [|e out] eqn:E.
  - destruct (is_rooted path); [left; reflexivity | right; discriminate].
  - assert (J : gostrings.Join (e :: out) "/" <> EmptyString)
      by (apply Join_elements_not_empty; [discriminate | exact Hout]).
    right. destruct (is_rooted path).
    + rewrite last_byte_append by exact J. now apply Join_elements_last.
    + now apply Join_elements_last.
Qed.

(** [path.Join] returns the root [/] or a name that does not end with a
    slash. *)
Lemma Join_last (elem : list string) :
  Join elem = "/" \/ gostrings.last_byte (Join elem) <> Some "/"%char.
Proof.
  unfold Join. destruct (join_buf EmptyString elem =? EmptyString);
    [right; discriminate | apply Clean_last].
Qed.

End PathMore.

(** ** The COS adapter *)
Section StorageMore.
Import new_storage.
Context `{Client} `{TimeParser}.

Lemma visit_dirs_fold {S} (process : cosFile -> S -> S * option error)
    (prefix : string) (dirs : list string) (s : S) :
  visit_dirs process prefix dirs s
  = fold_left (fun s f => fst (process f s)) (map (dir_entry prefix) dirs) s.
Proof.
  revert s. induction dirs as [|d dirs IH]; intros s; simpl; [reflexivity|].
  change (dir_entry prefix d)
    with {| size := 0%Z; lastModified := zeroTime;
            name := gostrings.TrimPrefix d prefix |}.
  destruct (process _ s) as [s' e]. apply IH.
Qed.

Lemma visit_contents_fold {S} (process : cosFile -> S -> S * option error)
    (prefix : string) (contents : list Object) (s : S) :
  visit_contents process prefix contents s
  = fold_left (fun s f => fst (process f s)) (map (file_entry prefix) contents) s.
Proof.
  revert s. induction contents as [|v contents IH]; intros s; simpl; [reflexivity|].
  change (file_entry prefix v)
    with {| name := gostrings.TrimPrefix (Key v) prefix;
            lastModified := fst (parseTime (LastModified v));
            size := Size v |}.
  destruct (parseTime (LastModified v)) as [t e]. simpl.
  destruct (process _ s) as [s' e']. apply IH.
Qed.

Lemma rebuild_after_trim {A} (key : A -> string) (prefix : string) (l : list A) :
  Forall (fun x => gostrings.HasPrefix (key x) prefix = true) l ->
  map (fun x => prefix +:+ gostrings.TrimPrefix (key x) prefix) l = map key l.
Proof.
  induction 1 as [|x l Hx Hl IH]; [reflexivity|].
  simpl. now rewrite IH, TrimPrefix_append.
Qed.

(** X9: [Walk] sends one listing request.  When the provider answers it, the
    visitor is run on every common prefix, in order, then on every object,
    in order, each time on the state the previous call left, whatever
    error a call returns, and [Walk] returns no error; when the provider
    fails, the visitor is not run and the provider's error is returned. *)
Theorem Walk_visits_every_entry {S} (c : COS) (cosPath : string) (recursive : bool)
    (process : cosFile -> S -> S * option error) (s : S) :
  let prefix := gopath.Join [config.cos_Path (Config c); cosPath] in
  let opt := {| Delimiter := if negb recursive then "/" else EmptyString;
                Prefix := prefix |} in
  Walk c cosPath recursive process s
  = ([BucketGet opt],
     match Bucket_Get opt with
     | Ok res =>
         (fold_left (fun s f => fst (process f s))
            (map (dir_entry prefix) (CommonPrefixes res)
             ++ map (file_entry prefix) (Contents res))%list s, None)
     | Err e => (s, Some (SdkError e))
     end).
Proof.
  cbv zeta. unfold Walk, call, bind, ret.
  destruct (Bucket_Get _) as [res|e]; [|reflexivity].
  now rewrite fold_left_app, <- visit_dirs_fold, <- visit_contents_fold.
Qed.

(** X10: when every entry of the listing starts with the listing prefix, the
    names given to the visitor are what follows the prefix: the prefix
    put back before each name gives the common prefixes and the keys of
    the listing, in order. *)
Theorem Walk_names_rebuild_keys (c : COS) (cosPath : string) (recursive : bool)
    (res : BucketGetResult) :
  let prefix := gopath.Join [config.cos_Path (Config c); cosPath] in
  Bucket_Get {| Delimiter := if negb recursive then "/" else EmptyString;
                Prefix := prefix |} = Ok res ->
  Forall (fun dir => gostrings.HasPrefix dir prefix = true) (CommonPrefixes res) ->
  Forall (fun v => gostrings.HasPrefix (Key v) prefix = true) (Contents res) ->
  map (fun f => prefix +:+ name f)
      (fst (snd (Walk c cosPath recursive record_visit [])))
  = (CommonPrefixes res ++ map Key (Contents res))%list.
Proof.
  cbv zeta. intros G Hd Hc. unfold Walk, call, bind, ret. rewrite G. cbn [fst snd].
  rewrite visit_dirs_record, visit_contents_record. cbn [app].
  rewrite map_app, !map_map. f_equal.
  - etransitivity; [exact (rebuild_after_trim (fun dir => dir) _ _ Hd) | apply List.map_id].
  - exact (rebuild_after_trim Key _ _ Hc).
Qed.

(** X11: a slash after a non-empty key is ignored: every operation behaves on
    [key/] as on [key], since both are joined to the same name. *)
Theorem trailing_slash_ignored (c : COS) (key : string) :
  key <> EmptyString ->
  StatFile c (key +:+ "/") = StatFile c key
  /\ GetFileReader c (key +:+ "/") = GetFileReader c key
  /\ DeleteFile c (key +:+ "/") = DeleteFile c key
  /\ (forall r, PutFile c (key +:+ "/") r = PutFile c key r)
  /\ (forall S recursive (process : cosFile -> S -> S * option error) s,
        Walk c (key +:+ "/") recursive process s = Walk c key recursive process s).
Proof.
  intros Hk. pose proof (Join_trailing_slash (config.cos_Path (Config c)) key Hk) as J.
  unfold StatFile, GetFileReader, DeleteFile, PutFile, Walk. rewrite J.
  repeat split.
Qed.

(** X12: [StatFile] returns [ErrNotFound] exactly when the provider answers
    with a [cos.ErrorResponse] whose code is [NoSuchKey]; every other
    error of the provider is returned as it is. *)
Theorem StatFile_not_found_iff (c : COS) (key : string) :
  let p := gopath.Join [config.cos_Path (Config c); key] in
  (snd (StatFile c key) = Err ErrNotFound
   <-> exists message, Object_Get p = Err (ErrorResponse "NoSuchKey" message))
  /\ (forall e, snd (StatFile c key) = Err (SdkError e)
      <-> Object_Get p = Err e /\ forall message, e <> ErrorResponse "NoSuchKey" message).
Proof.
  cbv zeta. unfold StatFile, call, bind, ret.
  destruct (Object_Get _) as [resp|[code message|text]]; cbn [fst snd].
  - destruct (parseTime _) as [t e]. simpl. split.
    + split; [discriminate | intros [m ?]; discriminate].
    + intros e'. split; [discriminate | intros [? _]; discriminate].
  - destruct (String.eqb_spec code "NoSuchKey") as [->|N]; simpl; split.
    + split; [eauto | reflexivity].
    + intros e. split; [discriminate|]. intros [[= <-] K]. exfalso. now apply (K message).
    + split; [discriminate | intros [m [= ? ?]]; congruence].
    + intros e. split.
      * intros [= <-]. split; [reflexivity|]. intros m [= ? ?]. congruence.
      * intros [[= <-] _]. reflexivity.
  - simpl. split.
    + split; [discriminate | intros [m ?]; discriminate].
    + intros e. split.
      * intros [= <-]. split; [reflexivity | discriminate].
      * intros [[= <-] _]. reflexivity.
Qed.

(** X13: [GetFileReader] sends the request [StatFile] sends and succeeds
    exactly when [StatFile] does, returning the body of the answer; its
    error is never [ErrNotFound]: it is the error of [StatFile], except
    where [StatFile] returns [ErrNotFound]. *)
Theorem GetFileReader_and_StatFile (c : COS) (key : string) :
  let p := gopath.Join [config.cos_Path (Config c); key] in
  fst (GetFileReader c key) = fst (StatFile c key)
  /\ ((exists b, snd (GetFileReader c key) = Ok b)
      <-> exists f, snd (StatFile c key) = Ok f)
  /\ (forall resp, Object_Get p = Ok resp -> snd (GetFileReader c key) = Ok (Body resp))
  /\ (forall e, snd (GetFileReader c key) = Err e ->
      e <> ErrNotFound
      /\ (snd (StatFile c key) = Err e \/ snd (StatFile c key) = Err ErrNotFound)).
Proof.
  cbv zeta. unfold GetFileReader, StatFile, call, bind, ret.
  destruct (Object_Get _) as [resp|[code message|text]]; cbn [fst snd].
  - destruct (parseTime _) as [t e]. simpl.
    split; [reflexivity|]. split; [split; eauto|]. split.
    + intros r [= <-]. reflexivity.
    + intros e' ?. discriminate.
  - destruct (code =? "NoSuchKey"); simpl;
      (split; [reflexivity|]); (split; [split; intros [? ?]; discriminate|]);
      (split; [intros r ?; discriminate|]);
      intros e [= <-]; (split; [discriminate | tauto]).
  - simpl. split; [reflexivity|]. split; [split; intros [? ?]; discriminate|].
    split; [intros r ?; discriminate|].
    intros e [= <-]. split; [discriminate | tauto].
Qed.

(** X14: of the headers of the answer, [StatFile] reads [Date] only: two
    answers with the same [Date], content length and request path give the
    same file, whatever their other headers (the [Last-Modified] of the
    object among them). *)
Theorem StatFile_Date_header_only (provider1 provider2 : Client) (c : COS)
    (key : string) (a b : Response) :
  let p := gopath.Join [config.cos_Path (Config c); key] in
  @Object_Get provider1 p = Ok a ->
  @Object_Get provider2 p = Ok b ->
  Header_Get (Header a) "Date" = Header_Get (Header b) "Date" ->
  ContentLength a = ContentLength b ->
  Request_URL_Path a = Request_URL_Path b ->
  @StatFile provider1 _ c key = @StatFile provider2 _ c key.
Proof.
  cbv zeta. intros Ga Gb Hd Hl Hp. unfold StatFile, call, bind, ret.
  rewrite Ga, Gb, Hd, Hl, Hp. reflexivity.
Qed.

(** X15: [parseTime] returns no error exactly when one of the four layouts
    parses the text; with an error the time is the zero time, and the error
    is that of the last layout, RFC 3339. *)
Theorem parseTime_error_iff (text : string) :
  (snd (parseTime text) = None
   <-> exists layout t, In layout timeFormats /\ time_Parse layout text = Ok t)
  /\ (snd (parseTime text) <> None -> fst (parseTime text) = zeroTime)
  /\ (forall e, snd (parseTime text) = Some e ->
      time_Parse "2006-01-02T15:04:05Z07:00" text = Err e).
Proof.
  unfold parseTime, timeFormats. cbn [parseTimeLoop]. unfold parse_pair.
  destruct (time_Parse "Mon, 02 Jan 2006 15:04:05 GMT" text) as [t1|e1] eqn:P1.
  { cbn [fst snd]. split; [|split; [congruence | discriminate]].
    split; [|reflexivity]. intros _. exists "Mon, 02 Jan 2006 15:04:05 GMT", t1.
    simpl. tauto. }
  destruct (time_Parse "Monday, 02-Jan-06 15:04:05 MST" text) as [t2|e2] eqn:P2.
  { cbn [fst snd]. split; [|split; [congruence | discriminate]].
    split; [|reflexivity]. intros _. exists "Monday, 02-Jan-06 15:04:05 MST", t2.
    simpl. tauto. }
  destruct (time_Parse "Mon Jan _2 15:04:05 2006" text) as [t3|e3] eqn:P3.
  { cbn [fst snd]. split; [|split; [congruence | discriminate]].
    split; [|reflexivity]. intros _. exists "Mon Jan _2 15:04:05 2006", t3.
    simpl. tauto. }
  destruct (time_Parse "2006-01-02T15:04:05Z07:00" text) as [t4|e4] eqn:P4.
  { cbn [fst snd]. split; [|split; [congruence | discriminate]].
    split; [|reflexivity]. intros _. exists "2006-01-02T15:04:05Z07:00", t4.
    simpl. tauto. }
  cbn [fst snd]. split; [|split].
  - split; [discriminate|]. intros (layout & t & Hin & P). simpl in Hin.
    destruct Hin as [<-|[<-|[<-|[<-|[]]]]]; congruence.
  - reflexivity.
  - intros e [= <-]. reflexivity.
Qed.

(** X18: the name an operation asks the provider for, and the prefix [Walk]
    lists under, is the root [/] or does not end with a slash: a listing
    prefix of the form [dir/] is never sent. *)
Theorem requested_name_no_trailing_slash {S} (c : COS) (key : string) (recursive : bool)
    (process : cosFile -> S -> S * option error) (s : S) :
  exists p,
    (p = "/" \/ gostrings.last_byte p <> Some "/"%char)
    /\ fst (StatFile c key) = [ObjectGet p]
    /\ fst (GetFileReader c key) = [ObjectGet p]
    /\ fst (DeleteFile c key) = [ObjectDelete p]
    /\ (forall r, fst (PutFile c key r) = [ObjectPut p])
    /\ fst (Walk c key recursive process s)
       = [BucketGet {| Delimiter := if negb recursive then "/" else EmptyString;
                       Prefix := p |}].
Proof.
  exists (gopath.Join [config.cos_Path (Config c); key]).
  split; [apply Join_last|].
  unfold StatFile, GetFileReader, DeleteFile, PutFile, Walk, call, bind, ret.
  repeat split.
  - destruct (Object_Get _) as [resp|[code m|t]]; [destruct (parseTime _)| |];
      try destruct (code =? "NoSuchKey"); reflexivity.
  - destruct (Object_Get _); reflexivity.
  - destruct (Bucket_Get _); reflexivity.
Qed.

End StorageMore.

Section ConnectFacts.
Import new_storage.
Context `{Dialer}.

(** X16: [Connect] sends a request, the one probe of the bucket, exactly when
    the URL and the timeout of the configuration both parse, and it is
    then that the client is assigned, also when the probe fails; the URL
    is parsed first, so its error hides that of the timeout; no error is
    returned exactly when both parse and the probe succeeds. *)
Theorem Connect_outcomes (c : COS) :
  let parsed := exists u timeout,
    url_Parse (config.cos_RowURL (Config c)) = Ok u
    /\ time_ParseDuration (config.cos_Timeout (Config c)) = Ok timeout in
  (fst (Connect c) = [BucketHead] <-> parsed)
  /\ (fst (Connect c) = [] <-> ~ parsed)
  /\ (is_Some (fst (snd (Connect c))) <-> parsed)
  /\ (forall e, url_Parse (config.cos_RowURL (Config c)) = Err e ->
      Connect c = ([], (None, Some (BadURL e))))
  /\ (snd (snd (Connect c)) = None
      <-> exists u timeout,
            url_Parse (config.cos_RowURL (Config c)) = Ok u
            /\ time_ParseDuration (config.cos_Timeout (Config c)) = Ok timeout
            /\ @Bucket_Head
                 (cos_NewClient u timeout (config.cos_SecretID (Config c))
                    (config.cos_SecretKey (Config c)) (Debug c)) = None).
Proof.
  cbv zeta. unfold Connect, call, bind, ret.
  destruct (url_Parse _) as [u|eu].
  - destruct (time_ParseDuration _) as [t|et]; cbn [fst snd app].
    + split; [split; eauto|]. split.
      { split; [discriminate | intros N; exfalso; apply N; eauto]. }
      split; [split; eauto|]. split; [discriminate|].
      destruct (@Bucket_Head _) as [e|] eqn:B; simpl.
      * split; [discriminate|]. intros (u' & t' & [= <-] & [= <-] & B'). congruence.
      * split; [|reflexivity]. intros _. exists u, t. tauto.
    + split; [split; [discriminate | intros (? & ? & _ & ?); discriminate]|].
      split; [split; [intros _ (? & ? & _ & ?); discriminate | reflexivity]|].
      split; [split; [intros [? ?]; discriminate | intros (? & ? & _ & ?); discriminate]|].
      split; [discriminate|].
      split; [discriminate | intros (? & ? & _ & ? & _); discriminate].
  - cbn [fst snd].
    split; [split; [discriminate | intros (? & ? & ? & _); discriminate]|].
    split; [split; [intros _ (? & ? & ? & _); discriminate | reflexivity]|].
    split; [split; [intros [? ?]; discriminate | intros (? & ? & ? & _); discriminate]|].
    split; [intros e [= <-]; reflexivity|].
    split; [discriminate | intros (? & ? & ? & _); discriminate].
Qed.

End ConnectFacts.

(** ** Table metadata *)
Section MetadataMore.
Import metadata.
Context `{Deps}.

(** X17: [Load] leaves the receiver as it was when the file cannot be read;
    once the file is read, the receiver is what [json.Unmarshal] made of
    it, also when decoding fails and [Load] returns the error. *)
Theorem Load_receiver (tm : TableMetadata) (location : string) :
  (snd (ReadFile location) <> None -> fst (Load tm location) = tm)
  /\ (snd (ReadFile location) = None ->
      fst (Load tm location) = fst (json_Unmarshal (fst (ReadFile location)) tm)
      /\ snd (snd (Load tm location))
         = snd (json_Unmarshal (fst (ReadFile location)) tm)).
Proof.
  unfold Load. destruct (ReadFile location) as [data [e|]]; simpl.
  - split; [reflexivity | discriminate].
  - split; [congruence|]. intros _.
    destruct (json_Unmarshal data tm) as [tm' [e|]]; simpl; split; reflexivity.
Qed.

End MetadataMore.

(** ** The further properties at concrete inputs *)

Lemma ValidateConfig_unknown_selector_witness :
  let cfg := config_env.set_RemoteStorage "bogus" config.DefaultConfig in
  ~ In (config.RemoteStorage (config.General cfg)) ("none" :: config.backendNames)
  /\ @config.ValidateConfig (config_env.refDeps []) cfg
     = Some "'unknown' is unsupported compression format".
Proof.
  cbv zeta.
  assert (N : ~ In (config.RemoteStorage (config.General
                 (config_env.set_RemoteStorage "bogus" config.DefaultConfig)))
                ("none" :: config.backendNames)).
  { simpl. intros [E|[E|[E|[E|[E|[E|[]]]]]]]; discriminate. }
  split; [exact N|].
  exact (@ValidateConfig_unknown_selector (config_env.refDeps []) _ N).
Defined.

(** With GCS selected, an S3 format outside the table is not looked at. *)
Lemma inactive_S3_format_inert_witness :
  let cfg := config_env.set_RemoteStorage "gcs" config.DefaultConfig in
  config.RemoteStorage (config.General cfg) <> "s3"
  /\ @config.ValidateConfig (config_env.refDeps [])
       (config_env.set_S3_CompressionFormat "zip" cfg)
     = @config.ValidateConfig (config_env.refDeps []) cfg.
Proof.
  cbv zeta.
  assert (N : config.RemoteStorage (config.General
                (config_env.set_RemoteStorage "gcs" config.DefaultConfig)) <> "s3")
    by discriminate.
  split; [exact N|].
  exact (proj2 (proj2 (@inactive_S3_format_inert (config_env.refDeps []) "zip" _ N))).
Defined.

Lemma DefaultConfig_valid_witness :
  (exists d, @config.ParseDuration (config_env.refDeps []) "5m" = Ok d)
  /\ (exists d, @config.ParseDuration (config_env.refDeps []) "2m" = Ok d)
  /\ In "STANDARD" (@config.StorageClass_Values (config_env.refDeps []))
  /\ @config.ValidateConfig (config_env.refDeps []) config.DefaultConfig = None.
Proof.
  assert (D5 : exists d, @config.ParseDuration (config_env.refDeps []) "5m" = Ok d)
    by (eexists; vm_compute; reflexivity).
  assert (D2 : exists d, @config.ParseDuration (config_env.refDeps []) "2m" = Ok d)
    by (eexists; vm_compute; reflexivity).
  assert (S : In "STANDARD" (@config.StorageClass_Values (config_env.refDeps [])))
    by (simpl; tauto).
  repeat (split; [assumption|]).
  exact (@DefaultConfig_valid (config_env.refDeps []) D5 D2 S).
Defined.

(** The recursive listing under [a]: the names [/b/file1] and [/c/file2]
    after the prefix [a] are the two keys. *)
Lemma Walk_names_rebuild_keys_witness :
  let provider :=
    storage_env.memClient "Thu, 04 Mar 2021 05:06:07 GMT" storage_env.two_keys in
  map (fun f => "a" +:+ new_storage.name f)
      (fst (snd (@new_storage.Walk provider storage_env.refTimeParser _
                   storage_env.cos0 "a/" true new_storage.record_visit [])))
  = ["a/b/file1"; "a/c/file2"].
Proof.
  cbv zeta.
  refine (@Walk_names_rebuild_keys
            (storage_env.memClient "Thu, 04 Mar 2021 05:06:07 GMT" storage_env.two_keys)
            storage_env.refTimeParser storage_env.cos0 "a/" true
            (storage_env.listing storage_env.two_keys "a" EmptyString) eq_refl _ _).
  - constructor.
  - repeat constructor.
Defined.

Lemma trailing_slash_ignored_witness :
  let provider :=
    storage_env.memClient "Thu, 04 Mar 2021 05:06:07 GMT" storage_env.two_keys in
  "a/b/file1" <> EmptyString
  /\ @new_storage.StatFile provider storage_env.refTimeParser storage_env.cos0 "a/b/file1/"
     = @new_storage.StatFile provider storage_env.refTimeParser storage_env.cos0 "a/b/file1".
Proof.
  cbv zeta.
  assert (N : "a/b/file1" <> EmptyString) by discriminate.
  split; [exact N|].
  exact (proj1 (@trailing_slash_ignored
                  (storage_env.memClient "Thu, 04 Mar 2021 05:06:07 GMT" storage_env.two_keys)
                  storage_env.refTimeParser storage_env.cos0 "a/b/file1" N)).
Defined.

(** Two buckets whose object [a/b/file1] was last modified at different
    times: [StatFile] returns the same file, dated by the response. *)
Lemma StatFile_Date_header_only_witness :
  let now := "Thu, 04 Mar 2021 05:06:07 GMT" in
  let older :=
    [ {| storage_env.skey := "a/b/file1";
         storage_env.smodified := "2019-01-01T00:00:00.000Z";
         storage_env.sbody := "one" |} ] in
  match @new_storage.Object_Get (storage_env.memClient now storage_env.two_keys) "a/b/file1",
        @new_storage.Object_Get (storage_env.memClient now older) "a/b/file1" with
  | Ok a, Ok b =>
      new_storage.Header_Get (new_storage.Header a) "Last-Modified"
      <> new_storage.Header_Get (new_storage.Header b) "Last-Modified"
  | _, _ => False
  end
  /\ @new_storage.StatFile (storage_env.memClient now storage_env.two_keys)
       storage_env.refTimeParser storage_env.cos0 "a/b/file1"
     = @new_storage.StatFile (storage_env.memClient now older)
         storage_env.refTimeParser storage_env.cos0 "a/b/file1".
Proof.
  cbv zeta. split; [vm_compute; discriminate|].
  refine (@StatFile_Date_header_only storage_env.refTimeParser
            (storage_env.memClient "Thu, 04 Mar 2021 05:06:07 GMT" storage_env.two_keys)
            (storage_env.memClient "Thu, 04 Mar 2021 05:06:07 GMT"
               [ {| storage_env.skey := "a/b/file1";
                    storage_env.smodified := "2019-01-01T00:00:00.000Z";
                    storage_env.sbody := "one" |} ])
            storage_env.cos0 "a/b/file1" _ _ eq_refl eq_refl _ _ _); reflexivity.
Defined.

(** The default COS section (empty URL, timeout [2m]) parses: [Connect]
    probes the bucket once and assigns the client. *)
Lemma Connect_outcomes_witness :
  let dialer :=
    storage_env.refDialer "Thu, 04 Mar 2021 05:06:07 GMT" storage_env.two_keys in
  fst (@new_storage.Connect dialer storage_env.cos0) = [new_storage.BucketHead]
  /\ snd (snd (@new_storage.Connect dialer storage_env.cos0)) = None.
Proof.
  cbv zeta.
  pose proof (@Connect_outcomes
                (storage_env.refDialer "Thu, 04 Mar 2021 05:06:07 GMT" storage_env.two_keys)
                storage_env.cos0) as (Sent & _ & _ & _ & Nil).
  split.
  - apply Sent. eexists _, _. split; vm_compute; reflexivity.
  - apply Nil. eexists _, _. repeat split; vm_compute; reflexivity.
Defined.
